(** * CertForge: shallow embedding of certforge.go and its specification

    Data model: Go strings are byte strings and are modelled as [string]
    (a list of 8-bit [ascii]); byte slices are [list Z] whose elements are
    the byte values; Go [int] is [Z], with the 64-bit wrap-around written
    out where the code multiplies.  The standard-library collaborators that
    the code calls ([encoding/asn1], [fmt.Sscanf], [time.Time.Add],
    [x509.CreateCertificate]) are embedded as far as the claims use them;
    the file system, PEM and X.509 parsers are parameters of a Section. *)

From Stdlib Require Import ZArith List String Ascii Bool Lia.
Import ListNotations.
Open Scope Z_scope.

(* ------------------------------------------------------------------ *)
(** ** Go strings and byte slices *)

Definition bytes := list Z.

(** [[]byte(s)] *)
Definition bytes_of_string (s : string) : bytes :=
  map (fun a => Z.of_nat (nat_of_ascii a)) (list_ascii_of_string s).

(** [string(b)] *)
Definition string_of_bytes (b : bytes) : string :=
  string_of_list_ascii (map (fun z => ascii_of_nat (Z.to_nat z)) b).

(** [strings.Join(parts, sep)] *)
Fixpoint join (sep : string) (parts : list string) : string :=
  match parts with
  | [] => EmptyString
  | [p] => p
  | p :: ps => p ++ sep ++ join sep ps
  end.

(** [strings.Contains(s, ".")]: a one-byte needle is found iff the byte occurs *)
Definition contains_dot (s : string) : bool :=
  existsb (fun a => Ascii.eqb a "."%char) (list_ascii_of_string s).

(** [contains] (certforge.go): linear scan with [==] *)
Fixpoint contains (slice : list string) (str : string) : bool :=
  match slice with
  | [] => false
  | item :: rest => if String.eqb item str then true else contains rest str
  end.

(** Signed 64-bit wrap-around of Go's [int64] / [time.Duration] arithmetic. *)
Definition wrap64 (z : Z) : Z := (z + 2 ^ 63) mod 2 ^ 64 - 2 ^ 63.

(* ------------------------------------------------------------------ *)
(** ** encoding/asn1: the parts used by the SAN extension code *)

Module Asn1.

Definition ClassUniversal := 0.
Definition ClassContextSpecific := 2.
Definition TagSequence := 16.

(** [asn1.RawValue] *)
Record RawValue := mkRaw {
  Class : Z;
  Tag : Z;
  IsCompound : bool;
  Bytes : bytes;
  FullBytes : bytes
}.

(** [tagAndLength] *)
Record tagAndLength := mkTL { tl_class : Z; tl_tag : Z; tl_length : Z; tl_isCompound : bool }.

(** [lengthLength]: [numBytes := 1; for i > 255 { numBytes++; i >>= 8 }].
    The loop runs at most [i] times, which is the fuel. *)
Fixpoint lengthLength_loop (fuel : nat) (numBytes i : Z) : Z :=
  match fuel with
  | O => numBytes
  | S f => if i >? 255 then lengthLength_loop f (numBytes + 1) (Z.shiftr i 8)
           else numBytes
  end.

Definition lengthLength (i : Z) : Z := lengthLength_loop (Z.to_nat i) 1 i.

(** [appendLength]: [for ; n > 0; n-- { dst = append(dst, byte(i >> ((n-1)*8))) }] *)
Fixpoint appendLength_loop (n : nat) (i : Z) : bytes :=
  match n with
  | O => []
  | S m => (Z.shiftr i (8 * Z.of_nat m) mod 256) :: appendLength_loop m i
  end.

Definition appendLength (dst : bytes) (i : Z) : bytes :=
  dst ++ appendLength_loop (Z.to_nat (lengthLength i)) i.

(** [appendBase128Int] (only reached for tags >= 31) *)
Fixpoint base128_loop (fuel : nat) (n : Z) (acc : bytes) : bytes :=
  match fuel with
  | O => acc
  | S f => if n =? 0 then acc
           else base128_loop f (Z.shiftr n 7) ((Z.land n 127) :: acc)
  end.

Definition appendBase128Int (dst : bytes) (n : Z) : bytes :=
  let l := base128_loop (Z.to_nat n) (Z.shiftr n 7) [Z.land n 127] in
  (* every byte but the last carries the continuation bit *)
  let fix mark (l : bytes) : bytes :=
      match l with
      | [] => []
      | [b] => [b]
      | b :: r => Z.lor b 128 :: mark r
      end in
  dst ++ mark l.

(** [appendTagAndLength] *)
Definition appendTagAndLength (dst : bytes) (t : tagAndLength) : bytes :=
  let b := Z.shiftl (tl_class t) 6 in
  let b := if tl_isCompound t then Z.lor b 32 else b in
  let dst := if tl_tag t >=? 31
             then appendBase128Int (dst ++ [Z.lor b 31]) (tl_tag t)
             else dst ++ [Z.lor b (tl_tag t)] in
  if tl_length t >=? 128
  then appendLength (dst ++ [Z.lor 128 (lengthLength (tl_length t))]) (tl_length t)
  else dst ++ [tl_length t].

(** [makeField] for a [RawValue]: [FullBytes] verbatim if set, else header and [Bytes] *)
Definition marshalRawValue (rv : RawValue) : bytes :=
  match FullBytes rv with
  | _ :: _ => FullBytes rv
  | [] => appendTagAndLength [] (mkTL (Class rv) (Tag rv) (Z.of_nat (List.length (Bytes rv))) (IsCompound rv))
          ++ Bytes rv
  end.

(** [asn1.Marshal] of a [[]RawValue]: a universal, constructed SEQUENCE whose
    body is the concatenation of the elements' encodings (the 0-, 1- and
    n-element cases of [makeBody] all produce this concatenation). *)
Definition marshalRawValues (rvs : list RawValue) : bytes :=
  let body := List.concat (map marshalRawValue rvs) in
  appendTagAndLength [] (mkTL ClassUniversal TagSequence (Z.of_nat (List.length body)) true) ++ body.

(** Errors of the decoder, as the reasons [encoding/asn1] reports. *)
Inductive error :=
  | InternalError | TruncatedTagOrLength | NonMinimalTag | Base128Error
  | IndefiniteLength | LengthTooLarge | LeadingZeros | NonMinimalLength
  | SequenceTruncated | TagsDontMatch | DataTruncated | SequenceTagMismatch
  | TruncatedSequence.

(** [parseBase128Int]: at most 4 bytes, no leading 0x80, result fits 31 bits *)
Fixpoint parseBase128_loop (fuel : nat) (shifted : nat) (bs : bytes) (off : nat) (ret64 : Z)
  : error + (Z * nat) :=
  match fuel with
  | O => inl Base128Error
  | S f =>
    if (shifted =? 5)%nat then inl Base128Error else
    match nth_error bs off with
    | None => inl Base128Error
    | Some b =>
      if (shifted =? 0)%nat && (b =? 128) then inl Base128Error else
      let ret64 := Z.lor (Z.shiftl ret64 7) (Z.land b 127) in
      if Z.land b 128 =? 0
      then if ret64 >? 2147483647 then inl Base128Error else inr (ret64, S off)
      else parseBase128_loop f (S shifted) bs (S off) ret64
    end
  end.

Definition parseBase128Int (bs : bytes) (off : nat) : error + (Z * nat) :=
  parseBase128_loop 6 0 bs off 0.

(** the long-form length loop of [parseTagAndLength] *)
Fixpoint parseLength_loop (numBytes : nat) (bs : bytes) (off : nat) (len : Z)
  : error + (Z * nat) :=
  match numBytes with
  | O => inr (len, off)
  | S k =>
    match nth_error bs off with
    | None => inl TruncatedTagOrLength
    | Some b =>
      if len >=? 2 ^ 23 then inl LengthTooLarge else
      let len := Z.lor (Z.shiftl len 8) b in
      if len =? 0 then inl LeadingZeros else parseLength_loop k bs (S off) len
    end
  end.

(** [parseTagAndLength] *)
Definition parseTagAndLength (bs : bytes) (off : nat) : error + (tagAndLength * nat) :=
  match nth_error bs off with
  | None => inl InternalError
  | Some b =>
    let cls := Z.shiftr b 6 in
    let comp := Z.land b 32 =? 32 in
    let tag := Z.land b 31 in
    let tagres := if tag =? 31
                  then match parseBase128Int bs (S off) with
                       | inl e => inl e
                       | inr (t, o) => if t <? 31 then inl NonMinimalTag else inr (t, o)
                       end
                  else inr (tag, S off) in
    match tagres with
    | inl e => inl e
    | inr (tag, off) =>
      match nth_error bs off with
      | None => inl TruncatedTagOrLength
      | Some b =>
        if Z.land b 128 =? 0 then inr (mkTL cls tag (Z.land b 127) comp, S off)
        else
          let numBytes := Z.land b 127 in
          if numBytes =? 0 then inl IndefiniteLength else
          match parseLength_loop (Z.to_nat numBytes) bs (S off) 0 with
          | inl e => inl e
          | inr (len, off) =>
            if len <? 128 then inl NonMinimalLength
            else inr (mkTL cls tag len comp, off)
          end
      end
    end
  end.

(** [invalidLength(offset, length, sliceLength)] *)
Definition invalidLength (off : nat) (len : Z) (sliceLength : nat) : bool :=
  (Z.of_nat off + len <? Z.of_nat off) || (Z.of_nat sliceLength <? Z.of_nat off + len).

Definition slice (bs : bytes) (lo hi : nat) : bytes := firstn (hi - lo) (skipn lo bs).

(** [parseField] into a [RawValue] (which matches any tag) *)
Definition parseRawValue (bs : bytes) (initOff : nat) : error + (RawValue * nat) :=
  if (initOff =? List.length bs)%nat then inl SequenceTruncated else
  match parseTagAndLength bs initOff with
  | inl e => inl e
  | inr (t, off) =>
    if invalidLength off (tl_length t) (List.length bs) then inl DataTruncated else
    let hi := (off + Z.to_nat (tl_length t))%nat in
    inr (mkRaw (tl_class t) (tl_tag t) (tl_isCompound t) (slice bs off hi) (slice bs initOff hi), hi)
  end.

(** [parseSequenceOf] with element type [RawValue]: a first pass checks each
    element header (any tag matches), a second pass parses the elements. *)
Fixpoint seqOf_count (fuel : nat) (bs : bytes) (off : nat) (n : nat) : error + nat :=
  match fuel with
  | O => inr n
  | S f =>
    if (List.length bs <=? off)%nat then inr n else
    match parseTagAndLength bs off with
    | inl e => inl e
    | inr (t, off) =>
      if invalidLength off (tl_length t) (List.length bs) then inl TruncatedSequence
      else seqOf_count f bs (off + Z.to_nat (tl_length t))%nat (S n)
    end
  end.

Fixpoint seqOf_elems (n : nat) (bs : bytes) (off : nat) : error + list RawValue :=
  match n with
  | O => inr []
  | S k =>
    match parseRawValue bs off with
    | inl e => inl e
    | inr (rv, off) =>
      match seqOf_elems k bs off with
      | inl e => inl e
      | inr rvs => inr (rv :: rvs)
      end
    end
  end.

Definition parseSequenceOfRaw (bs : bytes) : error + list RawValue :=
  match seqOf_count (List.length bs) bs 0 0 with
  | inl e => inl e
  | inr n => seqOf_elems n bs 0
  end.

(** [parseField] into a [[]RawValue]: the header must be a universal,
    constructed SEQUENCE (no default value: the field is not optional). *)
Definition parseRawValues (bs : bytes) (initOff : nat) : error + (list RawValue * nat) :=
  if (initOff =? List.length bs)%nat then inl SequenceTruncated else
  match parseTagAndLength bs initOff with
  | inl e => inl e
  | inr (t, off) =>
    if negb ((tl_class t =? ClassUniversal) && (tl_tag t =? TagSequence)) || negb (tl_isCompound t)
    then inl TagsDontMatch else
    if invalidLength off (tl_length t) (List.length bs) then inl DataTruncated else
    let hi := (off + Z.to_nat (tl_length t))%nat in
    match parseSequenceOfRaw (slice bs off hi) with
    | inl e => inl e
    | inr rvs => inr (rvs, hi)
    end
  end.

(** [asn1.Unmarshal(b, &rv)] returning [(rest, err)] *)
Definition UnmarshalRaw (b : bytes) : error + (RawValue * bytes) :=
  match parseRawValue b 0 with
  | inl e => inl e
  | inr (rv, off) => inr (rv, skipn off b)
  end.

(** [asn1.Unmarshal(b, &rawValues)] with [rawValues []asn1.RawValue] *)
Definition UnmarshalRaws (b : bytes) : error + (list RawValue * bytes) :=
  match parseRawValues b 0 with
  | inl e => inl e
  | inr (rvs, off) => inr (rvs, skipn off b)
  end.

End Asn1.

(* ------------------------------------------------------------------ *)
(** ** Distinguished names, extensions, requests and certificates *)

(** [pkix.Name], restricted to the fields certforge sets and prints *)
Record Name := mkName {
  CommonName : string;
  Organization : list string;
  OrganizationalUnit : list string;
  Country : list string;
  Province : list string;
  Locality : list string
}.

(** [pkix.Extension] *)
Record Extension := mkExt {
  ext_Id : list Z;
  ext_Critical : bool;
  ext_Value : bytes
}.

Definition oidSubjectAltName : list Z := [2; 5; 29; 17].

(** [asn1.ObjectIdentifier.Equal] *)
Fixpoint oid_equal (a b : list Z) : bool :=
  match a, b with
  | [], [] => true
  | x :: a', y :: b' => (x =? y) && oid_equal a' b'
  | _, _ => false
  end.

(** the SAN block of [main] (certforge.go lines 495-514): one raw value
    [{Tag: 2, Class: 2, Bytes: []byte(san)}] per entry, marshalled as a
    sequence ([asn1.Marshal] cannot fail on raw values). *)
Definition sanRawValue (san : string) : Asn1.RawValue :=
  Asn1.mkRaw 2 2 false (bytes_of_string san) [].

Definition sanExtension (sans : list string) : Extension :=
  mkExt oidSubjectAltName false (Asn1.marshalRawValues (map sanRawValue sans)).

(** [x509.CertificateRequest] template built by [main] *)
Record CSRTemplate := mkCSRTemplate {
  csr_Subject : Name;
  csr_ExtraExtensions : list Extension
}.

Definition csrTemplate (subj : Name) (sans : list string) : CSRTemplate :=
  mkCSRTemplate subj (if (0 <? List.length sans)%nat then [sanExtension sans] else []).

(** the SAN extraction of [printCSRInfo] (certforge.go lines 176-195) *)
Definition dnsNamesOfRaw (rvs : list Asn1.RawValue) : list string :=
  map (fun rv => string_of_bytes (Asn1.Bytes rv))
      (filter (fun rv => (Asn1.Class rv =? 2) && (Asn1.Tag rv =? 2)) rvs).

Definition sanNamesOfValue (v : bytes) : list string :=
  match Asn1.UnmarshalRaw v with
  | inr (seq, []) =>
    if (Asn1.Class seq =? Asn1.ClassUniversal) && (Asn1.Tag seq =? Asn1.TagSequence) then
      match Asn1.UnmarshalRaws (Asn1.Bytes seq) with
      | inr (rawValues, []) => dnsNamesOfRaw rawValues
      | _ => []
      end
    else []
  | _ => []
  end.

Fixpoint csrDNSNames (exts : list Extension) : list string :=
  match exts with
  | [] => []
  | ext :: rest =>
    (if oid_equal (ext_Id ext) [2; 5; 29; 17] then sanNamesOfValue (ext_Value ext) else [])
    ++ csrDNSNames rest
  end.

(** [formatName] (certforge.go lines 234-262) *)
Definition formatName (name : Name) : string :=
  let parts := if String.eqb (CommonName name) EmptyString then [] else ["CN=" ++ CommonName name]%string in
  let parts := parts ++ map (fun org => "O=" ++ org)%string (Organization name) in
  let parts := parts ++ map (fun ou => "OU=" ++ ou)%string (OrganizationalUnit name) in
  let parts := parts ++ map (fun country => "C=" ++ country)%string (Country name) in
  let parts := parts ++ map (fun province => "ST=" ++ province)%string (Province name) in
  let parts := parts ++ map (fun locality => "L=" ++ locality)%string (Locality name) in
  join ", " parts.

(* ------------------------------------------------------------------ *)
(** ** fmt.Sscanf(s, "%d", &v), strings.TrimSpace, strings.ToLower *)

(** the one-byte white space of [unicode.IsSpace] and of fmt's [isSpace]:
    tab, newline, vertical tab, form feed, carriage return and space *)
Definition is_space (a : ascii) : bool :=
  let n := nat_of_ascii a in
  ((9 <=? n) && (n <=? 13))%nat || (n =? 32)%nat.

(** the UTF-8 encodings of the other runes [unicode.IsSpace] accepts:
    U+0085 and U+00A0 (two bytes, C2 85 and C2 A0) *)
Definition is_ws2 (a b : ascii) : bool :=
  ((nat_of_ascii a =? 194) && ((nat_of_ascii b =? 133) || (nat_of_ascii b =? 160)))%nat.

(** U+1680 (E1 9A 80), U+2000-U+200A (E2 80 80-8A), U+2028, U+2029,
    U+202F (E2 80 A8, A9, AF), U+205F (E2 81 9F) and U+3000 (E3 80 80) *)
Definition is_ws3 (a b c : ascii) : bool :=
  let a := nat_of_ascii a in
  let b := nat_of_ascii b in
  let c := nat_of_ascii c in
  (((a =? 225) && (b =? 154) && (c =? 128)) ||
   ((a =? 226) && (b =? 128) &&
    (((128 <=? c) && (c <=? 138)) || (c =? 168) || (c =? 169) || (c =? 175))) ||
   ((a =? 226) && (b =? 129) && (c =? 159)) ||
   ((a =? 227) && (b =? 128) && (c =? 128)))%nat.

Definition is_digit (a : ascii) : bool :=
  let n := nat_of_ascii a in ((48 <=? n) && (n <=? 57))%nat.

(** [SkipSpace] with [nlIsSpace = false] (Sscanf): a newline is an error
    (a CR before it is skipped like any other space).  Only the one-byte
    spaces are modelled: [main] calls Sscanf on trimmed text, which starts
    with none of the Unicode white space either. *)
Fixpoint skipSpace (l : list ascii) : option (list ascii) :=
  match l with
  | [] => Some []
  | a :: r =>
    if Ascii.eqb a "010"%char then None
    else if is_space a then skipSpace r
    else Some l
  end.

(** [scanNumber(decimalDigits)]: the longest run of digits *)
Fixpoint scanDigits (l : list ascii) : list ascii * list ascii :=
  match l with
  | a :: r => if is_digit a then let '(ds, rest) := scanDigits r in (a :: ds, rest) else ([], l)
  | [] => ([], [])
  end.

Definition digits_value (ds : list ascii) : Z :=
  fold_left (fun acc a => acc * 10 + (Z.of_nat (nat_of_ascii a) - 48)) ds 0.

(** [scanInt('d', 64)]: optional sign, at least one digit, then
    [strconv.ParseInt(tok, 10, 64)], which rejects values outside int64.
    [None] is the error case, in which the target variable is left unchanged. *)
Definition sscanf_d (s : string) : option Z :=
  match skipSpace (list_ascii_of_string s) with
  | None => None
  | Some [] => None                              (* notEOF *)
  | Some l =>
    let '(neg, l) := match l with
                     | a :: r => if Ascii.eqb a "-"%char then (true, r)
                                 else if Ascii.eqb a "+"%char then (false, r)
                                 else (false, l)
                     | [] => (false, l)
                     end in
    match scanDigits l with
    | ([], _) => None                            (* "expected integer" *)
    | (ds, _) =>
      let v := if neg then - digits_value ds else digits_value ds in
      if (v <? - 2 ^ 63) || (2 ^ 63 - 1 <? v) then None else Some v
    end
  end.

(** [strings.TrimLeftFunc(s, unicode.IsSpace)] on the bytes of [s]:
    [utf8.DecodeRuneInString] yields a white space rune exactly when the
    bytes start with its encoding (an invalid sequence decodes to
    [RuneError], which is not a space). *)
Fixpoint dropSpace (l : list ascii) : list ascii :=
  match l with
  | a :: r =>
    if is_space a then dropSpace r else
    match r with
    | b :: r1 =>
      if is_ws2 a b then dropSpace r1 else
      match r1 with
      | c :: r2 => if is_ws3 a b c then dropSpace r2 else l
      | [] => l
      end
    | [] => l
    end
  | [] => []
  end.

(** [strings.TrimRightFunc(s, unicode.IsSpace)] on the reversed bytes of
    [s]: [utf8.DecodeLastRuneInString] yields a white space rune exactly
    when the bytes end with its encoding (the encodings' later bytes are
    continuation bytes, so the backward scan stops at their first byte). *)
Fixpoint dropSpaceRev (l : list ascii) : list ascii :=
  match l with
  | z :: r =>
    if is_space z then dropSpaceRev r else
    match r with
    | y :: r1 =>
      if is_ws2 y z then dropSpaceRev r1 else
      match r1 with
      | x :: r2 => if is_ws3 x y z then dropSpaceRev r2 else l
      | [] => l
      end
    | [] => l
    end
  | [] => []
  end.

(** [strings.TrimSpace]: its ASCII fast paths fall back to
    [TrimFunc]/[TrimRightFunc] with [unicode.IsSpace] at the first
    non-ASCII byte, so it trims the white space runes at both ends *)
Definition trimSpace (s : string) : string :=
  string_of_list_ascii (rev (dropSpaceRev (rev (dropSpace (list_ascii_of_string s))))).

(** [strings.ToLower] on ASCII letters *)
Definition toLower (s : string) : string :=
  string_of_list_ascii
    (map (fun a => let n := nat_of_ascii a in
                   if ((65 <=? n) && (n <=? 90))%nat then ascii_of_nat (n + 32) else a)
         (list_ascii_of_string s)).

(* ------------------------------------------------------------------ *)
(** ** main: input collection *)

(** [reader.ReadString('\n')]: the next input line; at end of input the
    empty string (the error is ignored by the code). *)
Definition readString (input : list string) : string * list string :=
  match input with
  | [] => (EmptyString, [])
  | l :: rest => (l, rest)
  end.

(** the key size block (certforge.go lines 404-416), on the trimmed input *)
Definition selectKeySize (keySizeStr : string) : Z :=
  let keySize := 2048 in
  if String.eqb keySizeStr EmptyString then keySize else
  let keySize := match sscanf_d keySizeStr with Some v => v | None => keySize end in
  let validSizes := fun k => (k =? 2048) || (k =? 3072) || (k =? 4096) in
  if negb (validSizes keySize) then 2048 else keySize.

(** the command-line flags [main] consults for generation *)
Record Flags := mkFlags {
  selfSignedFlag : bool;
  daysFlag : Z
}.

(** self-signed preference and validity period (certforge.go lines 426-450) *)
Definition selectValidity (fl : Flags) (input : list string) : bool * Z * list string :=
  let createSelfsigned := selfSignedFlag fl in
  let validDays := daysFlag fl in
  let '(createSelfsigned, input) :=
    if negb (selfSignedFlag fl) then
      let '(selfSigned, input) := readString input in
      let selfSigned := trimSpace (toLower selfSigned) in
      (String.eqb selfSigned "y" || String.eqb selfSigned "yes", input)
    else (createSelfsigned, input) in
  if createSelfsigned && negb (selfSignedFlag fl) then
    let '(validDaysStr, input) := readString input in
    let validDaysStr := trimSpace validDaysStr in
    if negb (String.eqb validDaysStr EmptyString) then
      let validDays := match sscanf_d validDaysStr with Some v => v | None => validDays end in
      if validDays <=? 0 then (createSelfsigned, 365, input) else (createSelfsigned, validDays, input)
    else (createSelfsigned, validDays, input)
  else (createSelfsigned, validDays, input).

(** the SAN loop (certforge.go lines 457-468): lines up to the first blank one *)
Fixpoint readSANs (input : list string) : list string * list string :=
  match input with
  | [] => ([], [])
  | l :: rest =>
    let san := trimSpace l in
    if String.eqb san EmptyString then ([], rest)
    else let '(sans, rest') := readSANs rest in (san :: sans, rest')
  end.

(* ------------------------------------------------------------------ *)
(** ** main: request and certificate assembly *)

(** [x509.KeyUsage] and [x509.ExtKeyUsage] constants *)
Definition KeyUsageDigitalSignature := 1.
Definition KeyUsageContentCommitment := 2.
Definition KeyUsageKeyEncipherment := 4.
Definition KeyUsageDataEncipherment := 8.
Definition KeyUsageKeyAgreement := 16.
Definition KeyUsageCertSign := 32.
Definition KeyUsageCRLSign := 64.
Definition KeyUsageEncipherOnly := 128.
Definition KeyUsageDecipherOnly := 256.

Definition ExtKeyUsageServerAuth := 1.
Definition ExtKeyUsageClientAuth := 2.
Definition ExtKeyUsageCodeSigning := 3.
Definition ExtKeyUsageEmailProtection := 4.
Definition ExtKeyUsageTimeStamping := 8.
Definition ExtKeyUsageOCSPSigning := 9.

(** [time.Time] as nanoseconds since the Unix epoch; [time.Duration] is an
    int64 count of nanoseconds. *)
Definition Hour : Z := 3600 * 10 ^ 9.

(** [time.Time.Add] *)
Definition timeAdd (t d : Z) : Z := t + d.

(** [time.Duration(validDays) * 24 * time.Hour]: two int64 products *)
Definition validityDuration (validDays : Z) : Z :=
  wrap64 (wrap64 (wrap64 validDays * 24) * Hour).

(** [x509.Certificate] template built by [main] *)
Record CertTemplate := mkCertTemplate {
  ct_SerialNumber : Z;
  ct_Subject : Name;
  ct_NotBefore : Z;
  ct_NotAfter : Z;
  ct_KeyUsage : Z;
  ct_ExtKeyUsage : list Z;
  ct_BasicConstraintsValid : bool;
  ct_DNSNames : list string
}.

(** certforge.go lines 587-615 *)
Definition certTemplate (subj : Name) (sans : list string) (commonName : string)
    (validDays now serialNumber : Z) : CertTemplate :=
  let notBefore := now in
  let notAfter := timeAdd notBefore (validityDuration validDays) in
  let dnsNames := if (0 <? List.length sans)%nat then sans else [] in
  let dnsNames := if negb (contains dnsNames commonName) && contains_dot commonName
                  then dnsNames ++ [commonName] else dnsNames in
  mkCertTemplate serialNumber subj notBefore notAfter
    (Z.lor KeyUsageKeyEncipherment KeyUsageDigitalSignature)
    [ExtKeyUsageServerAuth] true dnsNames.

(** the parsed [x509.Certificate] fields certforge prints *)
Record Certificate := mkCert {
  cert_SerialNumber : Z;
  cert_Subject : Name;
  cert_Issuer : Name;
  cert_NotBefore : Z;
  cert_NotAfter : Z;
  cert_KeyUsage : Z;
  cert_ExtKeyUsage : list Z;
  cert_DNSNames : list string
}.

(** [x509.CreateCertificate(rand, template, parent, pub, priv)] followed by
    [x509.ParseCertificate] of its output: the issuer is the parent's
    subject, the other fields come from the template, and the validity
    times are encoded to whole seconds. *)
Definition toSeconds (t : Z) : Z := t / 10 ^ 9 * 10 ^ 9.

Definition createCertificate (template parent : CertTemplate) : Certificate :=
  mkCert (ct_SerialNumber template) (ct_Subject template) (ct_Subject parent)
    (toSeconds (ct_NotBefore template)) (toSeconds (ct_NotAfter template))
    (ct_KeyUsage template) (ct_ExtKeyUsage template) (ct_DNSNames template).

(** what one generation run of [main] produces *)
Record Generated := mkGenerated {
  gen_keySize : Z;
  gen_subject : Name;
  gen_sans : list string;
  gen_validDays : Z;
  gen_csr : CSRTemplate;
  gen_certTemplate : option CertTemplate;
  gen_cert : option Certificate
}.

(** [main] after flag parsing, help, version and decode handling, on the
    input lines; [now] is [time.Now()] and [serialNumber] the random serial. *)
Definition main_generate (fl : Flags) (input : list string) (now serialNumber : Z) : Generated :=
  let '(commonName, input) := readString input in
  let commonName := trimSpace commonName in
  let '(organization, input) := readString input in
  let organization := trimSpace organization in
  let '(organizationalUnit, input) := readString input in
  let organizationalUnit := trimSpace organizationalUnit in
  let '(country, input) := readString input in
  let country := trimSpace country in
  let '(state, input) := readString input in
  let state := trimSpace state in
  let '(locality, input) := readString input in
  let locality := trimSpace locality in
  let '(_emailAddress, input) := readString input in
  let '(keySizeStr, input) := readString input in
  let keySize := selectKeySize (trimSpace keySizeStr) in
  let '(_filePrefix, input) := readString input in
  let '(createSelfsigned, validDays, input) := selectValidity fl input in
  let '(addSANs, input) := readString input in
  let addSANs := trimSpace (toLower addSANs) in
  let sans := if String.eqb addSANs "y" || String.eqb addSANs "yes" then fst (readSANs input) else [] in
  let subj := mkName commonName [organization] [organizationalUnit] [country] [state] [locality] in
  let template := csrTemplate subj sans in
  let ct := if createSelfsigned
            then Some (certTemplate subj sans commonName validDays now serialNumber)
            else None in
  mkGenerated keySize subj sans validDays template ct
    (option_map (fun t => createCertificate t t) ct).

(* ------------------------------------------------------------------ *)
(** ** Decode mode *)

(** the key-usage lines of [printCertificateInfo], in the code's order *)
Definition keyUsageLines (ku : Z) : list string :=
  map snd (filter (fun p => negb (Z.land ku (fst p) =? 0))
    [(KeyUsageDigitalSignature, "Digital Signature");
     (KeyUsageContentCommitment, "Content Commitment");
     (KeyUsageKeyEncipherment, "Key Encipherment");
     (KeyUsageDataEncipherment, "Data Encipherment");
     (KeyUsageKeyAgreement, "Key Agreement");
     (KeyUsageCertSign, "Certificate Sign");
     (KeyUsageCRLSign, "CRL Sign");
     (KeyUsageEncipherOnly, "Encipher Only");
     (KeyUsageDecipherOnly, "Decipher Only")]%string).

(** the extended-key-usage switch of [printCertificateInfo] (other values print nothing) *)
Definition extKeyUsageLine (u : Z) : list string :=
  if u =? ExtKeyUsageServerAuth then ["Server Authentication"%string]
  else if u =? ExtKeyUsageClientAuth then ["Client Authentication"%string]
  else if u =? ExtKeyUsageCodeSigning then ["Code Signing"%string]
  else if u =? ExtKeyUsageEmailProtection then ["Email Protection"%string]
  else if u =? ExtKeyUsageTimeStamping then ["Time Stamping"%string]
  else if u =? ExtKeyUsageOCSPSigning then ["OCSP Signing"%string]
  else [].

(** the parsed [x509.CertificateRequest] fields certforge uses *)
Record CertificateRequest := mkCSR {
  csr_req_Subject : Name;
  csr_Extensions : list Extension;
  csr_CheckSignatureOK : bool            (* [csr.CheckSignature() == nil] *)
}.

(** the RSA private key fields certforge prints *)
Record RSAPrivateKey := mkRSAKey {
  key_BitLen : Z;
  key_E : Z;
  key_ValidateOK : bool                  (* [key.Validate() == nil] *)
}.

(** the dynamic type of a PKCS#8 key *)
Inductive PrivateKey :=
  | PKRSA (k : RSAPrivateKey)
  | PKOther.

(** [pem.Block] *)
Record Block := mkBlock { blk_Type : string; blk_Bytes : bytes }.

(** what the decode mode prints on success *)
Record CertSummary := mkCertSummary {
  cs_Subject : string;
  cs_Issuer : string;
  cs_SerialNumber : Z;
  cs_NotBefore : Z;
  cs_NotAfter : Z;
  cs_DNSNames : list string;
  cs_SelfSigned : bool;
  cs_KeyUsage : list string;
  cs_ExtKeyUsage : list string
}.

Record CSRSummary := mkCSRSummary {
  rs_Subject : string;
  rs_DNSNames : list string;
  rs_SignatureValid : bool
}.

Inductive Summary :=
  | CertInfo (s : CertSummary)
  | CSRInfo (s : CSRSummary)
  | KeyInfo (k : RSAPrivateKey).

Section Decode.

(** [pkix.Name.String] (RFC 2253 rendering of the library) *)
Variable nameString : Name -> string.

(** the library calls of [decodeFile]; [inl] carries the error text *)
Variable readFile : string -> string + bytes.
Variable pemDecode : bytes -> option Block.
Variable parseCertificate : bytes -> string + Certificate.
Variable parseCertificateRequest : bytes -> string + CertificateRequest.
Variable parsePKCS1PrivateKey : bytes -> string + RSAPrivateKey.
Variable parsePKCS8PrivateKey : bytes -> string + PrivateKey.

(** [printCertificateInfo] *)
Definition printCertificateInfo (cert : Certificate) : CertSummary :=
  mkCertSummary (formatName (cert_Subject cert)) (formatName (cert_Issuer cert))
    (cert_SerialNumber cert) (cert_NotBefore cert) (cert_NotAfter cert)
    (cert_DNSNames cert)
    (String.eqb (nameString (cert_Subject cert)) (nameString (cert_Issuer cert)))
    (keyUsageLines (cert_KeyUsage cert))
    (List.concat (map extKeyUsageLine (cert_ExtKeyUsage cert))).

(** [printCSRInfo] *)
Definition printCSRInfo (csr : CertificateRequest) : CSRSummary :=
  mkCSRSummary (formatName (csr_req_Subject csr)) (csrDNSNames (csr_Extensions csr))
    (csr_CheckSignatureOK csr).

(** [decodeFile]: [inl] is the returned error, [inr] the printed summary
    (the code prints nothing on its error paths). *)
Definition decodeFile (filePath : string) : string + Summary :=
  match readFile filePath with
  | inl err => inl ("Error reading file: " ++ err)%string
  | inr data =>
    match pemDecode data with
    | None => inl "Failed to parse PEM block from file"%string
    | Some block =>
      if String.eqb (blk_Type block) "CERTIFICATE" then
        match parseCertificate (blk_Bytes block) with
        | inl err => inl ("Failed to parse certificate: " ++ err)%string
        | inr cert => inr (CertInfo (printCertificateInfo cert))
        end
      else if String.eqb (blk_Type block) "CERTIFICATE REQUEST" then
        match parseCertificateRequest (blk_Bytes block) with
        | inl err => inl ("Failed to parse CSR: " ++ err)%string
        | inr csr => inr (CSRInfo (printCSRInfo csr))
        end
      else if String.eqb (blk_Type block) "RSA PRIVATE KEY" then
        match parsePKCS1PrivateKey (blk_Bytes block) with
        | inl err => inl ("Failed to parse RSA private key: " ++ err)%string
        | inr key => inr (KeyInfo key)
        end
      else if String.eqb (blk_Type block) "PRIVATE KEY" then
        match parsePKCS8PrivateKey (blk_Bytes block) with
        | inl err => inl ("Failed to parse private key: " ++ err)%string
        | inr (PKRSA rsaKey) => inr (KeyInfo rsaKey)
        | inr PKOther => inl "Unsupported private key type"%string
        end
      else inl ("Unsupported PEM block type: " ++ blk_Type block)%string
    end
  end.

End Decode.

(* ------------------------------------------------------------------ *)
(** ** main: files written and exit status *)

(** the file-system calls of [main], in the order made *)
Inductive Event :=
  | EvMkdirAll (dir : string)            (* [os.MkdirAll(dir, 0755)] *)
  | EvCreate (path : string)             (* [os.Create(path)] *)
  | EvEncode (path : string) (b : Block). (* [pem.Encode(file at path, b)] *)

(** how [main] ends: by returning, or by [os.Exit(1)] after printing [msg] *)
Inductive Exit :=
  | ExitOK
  | ExitFail (msg : string).

Record Run := mkRun { run_events : list Event; run_exit : Exit }.

(** all the command-line flags of [main] *)
Record CmdFlags := mkCmdFlags {
  helpFlag : bool;
  shortHelpFlag : bool;
  versionFlag : bool;
  shortVersionFlag : bool;
  genFlags : Flags;                      (* [-s] and [-days] *)
  outputDirFlag : string;
  decodeFlag : string
}.

(** the branch [main] takes *)
Inductive Outcome :=
  | ShowHelp
  | ShowVersion
  | Decoded (r : string + Summary)       (* [inl]: error printed, exit 1 *)
  | Generation (r : Run).

(** the calls made so far, and the exit message or the result *)
Definition IO (A : Type) : Type := list Event -> list Event * (string + A).

Definition io_ret {A : Type} (a : A) : IO A := fun evs => (evs, inr a).

Definition io_bind {A B : Type} (m : IO A) (k : A -> IO B) : IO B :=
  fun evs => match m evs with
             | (evs', inl msg) => (evs', inl msg)
             | (evs', inr a) => k a evs'
             end.

Declare Scope io_scope.
Delimit Scope io_scope with io.
Notation "x <- m ;; k" := (io_bind m (fun x => k))
  (at level 61, m at next level, right associativity) : io_scope.
Notation "m ;; k" := (io_bind m (fun _ : unit => k))
  (at level 61, right associativity) : io_scope.

Definition emit (ev : Event) : IO unit := fun evs => (evs ++ [ev], inr tt).

(** [if err != nil { fmt.Printf(prefix + "%v\n", err); os.Exit(1) }] *)
Definition orExit {A : Type} (r : string + A) (prefix : string) : IO A :=
  fun evs => match r with
             | inl err => (evs, inl (prefix ++ err)%string)
             | inr a => (evs, inr a)
             end.

Definition orExitErr (r : option string) (prefix : string) : IO unit :=
  orExit (match r with Some err => inl err | None => inr tt end) prefix.

Section MainIO.

(** the key type of [rsa.GenerateKey] and the library calls of [main];
    [inl] and [Some] carry the error *)
Variable PrivKey : Type.
Variable generateKey : Z -> string + PrivKey.
Variable createCertificateRequest : CSRTemplate -> PrivKey -> string + bytes.
Variable marshalPKCS1PrivateKey : PrivKey -> bytes.
Variable randInt : string + Z.                  (* [rand.Int(rand.Reader, 2^128)] *)
(** [x509.CreateCertificate(rand.Reader, &t, &t, &key.PublicKey, key)] *)
Variable createCertificateDER : CertTemplate -> PrivKey -> string + bytes.
Variable mkdirAll : string -> option string.
Variable filepathJoin : string -> string -> string.
Variable osCreate : string -> option string.
Variable pemEncode : string -> Block -> option string.

Local Open Scope io_scope.

Definition createFile (path prefix : string) : IO unit :=
  emit (EvCreate path) ;; orExitErr (osCreate path) prefix.

Definition encodeFile (path : string) (b : Block) (prefix : string) : IO unit :=
  emit (EvEncode path b) ;; orExitErr (pemEncode path b) prefix.

(** [main] after flag parsing, from reading the answers (certforge.go
    lines 364-648); [now] is [time.Now()] *)
Definition main_io (fl : CmdFlags) (input : list string) (now : Z) : IO unit :=
  let '(commonName, input) := readString input in
  let commonName := trimSpace commonName in
  let '(organization, input) := readString input in
  let organization := trimSpace organization in
  let '(organizationalUnit, input) := readString input in
  let organizationalUnit := trimSpace organizationalUnit in
  let '(country, input) := readString input in
  let country := trimSpace country in
  let '(state, input) := readString input in
  let state := trimSpace state in
  let '(locality, input) := readString input in
  let locality := trimSpace locality in
  let '(_emailAddress, input) := readString input in
  let '(keySizeStr, input) := readString input in
  let keySize := selectKeySize (trimSpace keySizeStr) in
  let '(filePrefix, input) := readString input in
  let filePrefix := trimSpace filePrefix in
  let filePrefix := if String.eqb filePrefix EmptyString then "cert"%string else filePrefix in
  let '(createSelfsigned, validDays, input) := selectValidity (genFlags fl) input in
  let '(addSANs, input) := readString input in
  let addSANs := trimSpace (toLower addSANs) in
  let sans := if String.eqb addSANs "y" || String.eqb addSANs "yes" then fst (readSANs input) else [] in
  privateKey <- orExit (generateKey keySize) "Error generating private key: " ;;
  let subj := mkName commonName [organization] [organizationalUnit] [country] [state] [locality] in
  let template := csrTemplate subj sans in
  csrBytes <- orExit (createCertificateRequest template privateKey) "Error creating CSR: " ;;
  let outputDir := outputDirFlag fl in
  (if negb (String.eqb outputDir EmptyString)
   then emit (EvMkdirAll outputDir) ;;
        orExitErr (mkdirAll outputDir) "Error creating output directory: "
   else io_ret tt) ;;
  let keyPath := (filePrefix ++ ".key")%string in
  let csrPath := (filePrefix ++ ".csr")%string in
  let crtPath := (filePrefix ++ ".crt")%string in
  let '(keyPath, csrPath, crtPath) :=
    if negb (String.eqb outputDir EmptyString)
    then (filepathJoin outputDir keyPath, filepathJoin outputDir csrPath, filepathJoin outputDir crtPath)
    else (keyPath, csrPath, crtPath) in
  createFile keyPath "Error creating key file: " ;;
  encodeFile keyPath (mkBlock "RSA PRIVATE KEY" (marshalPKCS1PrivateKey privateKey))
    "Error encoding private key: " ;;
  createFile csrPath "Error creating CSR file: " ;;
  encodeFile csrPath (mkBlock "CERTIFICATE REQUEST" csrBytes) "Error encoding CSR: " ;;
  if createSelfsigned then
    serialNumber <- orExit randInt "Failed to generate serial number: " ;;
    let ct := certTemplate subj sans commonName validDays now serialNumber in
    derBytes <- orExit (createCertificateDER ct privateKey) "Failed to create certificate: " ;;
    createFile crtPath "Failed to create certificate file: " ;;
    encodeFile crtPath (mkBlock "CERTIFICATE" derBytes) "Failed to encode certificate: "
  else io_ret tt.

Definition main_run (fl : CmdFlags) (input : list string) (now : Z) : Run :=
  match main_io fl input now [] with
  | (evs, inl msg) => mkRun evs (ExitFail msg)
  | (evs, inr _) => mkRun evs ExitOK
  end.

(** [main] (certforge.go lines 327-651); [decode] is [decodeFile] *)
Definition main (decode : string -> string + Summary) (fl : CmdFlags) (input : list string) (now : Z)
    : Outcome :=
  if helpFlag fl || shortHelpFlag fl then ShowHelp
  else if versionFlag fl || shortVersionFlag fl then ShowVersion
  else if negb (String.eqb (decodeFlag fl) EmptyString) then Decoded (decode (decodeFlag fl))
  else Generation (main_run fl input now).

End MainIO.

(** the path [main] gives an output file with extension [ext] *)
Definition outputPath (filepathJoin : string -> string -> string) (outputDir prefix ext : string) : string :=
  if negb (String.eqb outputDir EmptyString)
  then filepathJoin outputDir (prefix ++ ext)%string
  else (prefix ++ ext)%string.

(** the output prefix [main] uses: the ninth answer, trimmed, "cert" if blank *)
Definition filePrefixOf (input : list string) : string :=
  let p := trimSpace (nth 8 input EmptyString) in
  if String.eqb p EmptyString then "cert"%string else p.

(* ------------------------------------------------------------------ *)
(** ** Specification-side definitions (from the spec's words) *)

(** The renderer the spec describes for distinguished names: CN, then the
    O, OU, C, ST and L values in order, where a field absent from the
    identity (an empty value) contributes no part at all. *)
Definition formatName_claimed (name : Name) : string :=
  let present := filter (fun v => negb (String.eqb v EmptyString)) in
  join ", "
    ((if String.eqb (CommonName name) EmptyString then [] else ["CN=" ++ CommonName name]%string)
     ++ map (fun v => "O=" ++ v)%string (present (Organization name))
     ++ map (fun v => "OU=" ++ v)%string (present (OrganizationalUnit name))
     ++ map (fun v => "C=" ++ v)%string (present (Country name))
     ++ map (fun v => "ST=" ++ v)%string (present (Province name))
     ++ map (fun v => "L=" ++ v)%string (present (Locality name))).

(** the length of [join] with a two-character separator, plus two: each
    part counts its own length and that of one separator *)
Definition partsWidth (parts : list string) : nat :=
  fold_right (fun p n => (String.length p + 2 + n)%nat) 0%nat parts.

(** The requested RSA key size: the integer [fmt.Sscanf] reads from the
    (trimmed, non-empty) answer, if any. *)
Definition requestedKeySize (keySizeStr : string) : option Z :=
  if String.eqb keySizeStr EmptyString then None else sscanf_d keySizeStr.

(** The shape the decoder's SAN walk expects of an extension value: a
    SEQUENCE with nothing after it whose contents parse as a SEQUENCE OF
    raw values with nothing after them. *)
Definition san_expected_shape (v : bytes) : Prop :=
  exists seq rawValues,
    Asn1.UnmarshalRaw v = inr (seq, []) /\
    Asn1.Class seq = Asn1.ClassUniversal /\ Asn1.Tag seq = Asn1.TagSequence /\
    Asn1.UnmarshalRaws (Asn1.Bytes seq) = inr (rawValues, []).

(** a request carrying the tool's own one-name SAN value, [30 03 82 01 61] *)
Definition csr_witness : CertificateRequest :=
  mkCSR (mkName "example.com" [] [] [] [] []) [sanExtension ["a"%string]] true.

(** X.690: the unsigned big-endian value of a list of octets *)
Definition be_value (ds : bytes) : Z := fold_left (fun acc d => acc * 256 + d) ds 0.

(** X.690 8.1.3 with the DER rule 10.1: the length octets of a content of
    [n] octets are [n] itself below 128; otherwise an initial octet
    [128 + k] (k <= 126) followed by the k octets of [n] in base 256,
    most significant first, the first one non-zero (the minimum number). *)
Definition der_length_octets (n : Z) (os : bytes) : Prop :=
  (0 <= n < 128 /\ os = [n]) \/
  (128 <= n /\ exists ds,
     os = (128 + Z.of_nat (List.length ds)) :: ds /\ (List.length ds <= 126)%nat /\
     Forall (fun d => 0 <= d < 256) ds /\ hd 0 ds <> 0 /\ be_value ds = n).

(** the DER encoding [bs] of a value of class [cls], low tag number [tag]
    (< 31), primitive or constructed, with contents [content] *)
Definition is_der_tlv (cls tag : Z) (constructed : bool) (content bs : bytes) : Prop :=
  exists lenOctets,
    der_length_octets (Z.of_nat (List.length content)) lenOctets /\
    bs = [cls * 64 + (if constructed then 32 else 0) + tag] ++ lenOctets ++ content.

(** the result of parsing one SAN encoding back *)
Definition sanParsed (san : string) : Asn1.RawValue :=
  Asn1.mkRaw 2 2 false (bytes_of_string san) (Asn1.marshalRawValue (sanRawValue san)).

(* ================================================================== *)
(** * Lemmas *)

Ltac destruct_lets :=
  repeat match goal with
         | |- context [let '(_, _) := ?e in _] => destruct e
         end.

(** the certificate [main] produces comes from [certTemplate] on the
    subject, SAN list and validity it collected *)
Lemma main_generate_cert (fl : Flags) (input : list string) (now serialNumber : Z) (c : Certificate) :
  gen_cert (main_generate fl input now serialNumber) = Some c ->
  let g := main_generate fl input now serialNumber in
  exists t, gen_certTemplate g = Some t /\ c = createCertificate t t /\
    t = certTemplate (gen_subject g) (gen_sans g) (CommonName (gen_subject g))
          (gen_validDays g) now serialNumber.
Proof.
  unfold main_generate; destruct_lets; simpl.
  destruct b; simpl; intros H; inversion H; subst; eauto.
Qed.

Lemma contains_In (slice : list string) (str : string) :
  contains slice str = true <-> In str slice.
Proof.
  induction slice as [|item rest IH]; simpl.
  - split; [discriminate | tauto].
  - destruct (String.eqb item str) eqn:E.
    + apply String.eqb_eq in E; subst; tauto.
    + apply String.eqb_neq in E; rewrite IH; intuition congruence.
Qed.

Lemma certTemplate_DNSNames subj sans cn validDays now serialNumber :
  ct_DNSNames (certTemplate subj sans cn validDays now serialNumber) =
  if negb (contains sans cn) && contains_dot cn then sans ++ [cn] else sans.
Proof.
  unfold certTemplate; simpl.
  destruct sans as [|s rest]; reflexivity.
Qed.

Lemma app_single_neq {A} (l : list A) (x : A) : l ++ [x] <> l.
Proof.
  intros H; apply (f_equal (@List.length A)) in H.
  rewrite length_app in H; simpl in H; lia.
Qed.

Lemma wrap64_small (z : Z) : - 2 ^ 63 <= z < 2 ^ 63 -> wrap64 z = z.
Proof.
  intros H; unfold wrap64; rewrite Z.mod_small; lia.
Qed.

Lemma validityDuration_small (d : Z) :
  -106751 <= d <= 106751 -> validityDuration d = d * 24 * Hour.
Proof.
  intros H; unfold validityDuration, Hour.
  rewrite (wrap64_small d) by lia.
  rewrite (wrap64_small (d * 24)) by lia.
  rewrite wrap64_small by lia; lia.
Qed.

Lemma toSeconds_add_days (t d : Z) :
  toSeconds (t + d * 24 * Hour) = toSeconds t + d * 24 * Hour.
Proof.
  unfold toSeconds, Hour.
  replace (t + d * 24 * (3600 * 10 ^ 9)) with (t + (d * 86400) * 10 ^ 9) by lia.
  rewrite Z.div_add by lia; lia.
Qed.

Lemma toSeconds_mono (t u : Z) : t <= u -> toSeconds t <= toSeconds u.
Proof.
  intros H; unfold toSeconds.
  apply Z.mul_le_mono_nonneg_r; [lia|].
  apply Z.div_le_mono; lia.
Qed.

(** with [-s], [main] keeps the [-days] value and always builds a certificate *)
Lemma main_generate_flag (d : Z) (input : list string) (now serialNumber : Z) :
  let g := main_generate (mkFlags true d) input now serialNumber in
  gen_validDays g = d /\
  gen_cert g = Some (let t := certTemplate (gen_subject g) (gen_sans g) (CommonName (gen_subject g)) d now serialNumber in
                     createCertificate t t).
Proof.
  unfold main_generate, selectValidity; simpl; destruct_lets; simpl; auto.
Qed.

Lemma lengthLength_loop_spec (f : nat) (nb i : Z) :
  0 <= i < 256 ^ (Z.of_nat f + 1) ->
  exists j, Asn1.lengthLength_loop f nb i = nb + j /\ 0 <= j /\ i < 256 ^ (j + 1) /\
            (j = 0 \/ 256 ^ j <= i).
Proof.
  revert nb i; induction f as [|f IH]; intros nb i Hi; simpl.
  - exists 0; repeat split; try lia; left; reflexivity.
  - destruct (Z.gtb_spec i 255) as [Hgt|Hle].
    + rewrite Z.shiftr_div_pow2 by lia; change (2 ^ 8) with 256.
      destruct (IH (nb + 1) (i / 256)) as (j & Hres & Hj & Hlt & Hlow).
      { split; [apply Z.div_pos; lia|].
        apply Z.div_lt_upper_bound; [lia|].
        replace (256 * 256 ^ (Z.of_nat f + 1)) with (256 ^ (Z.of_nat (S f) + 1)); [lia|].
        rewrite Nat2Z.inj_succ, <- Z.add_1_r, <- Z.pow_succ_r by lia; f_equal; lia. }
      exists (j + 1); rewrite Hres; repeat split; try lia.
      * replace (j + 1 + 1) with (Z.succ (j + 1)) by lia; rewrite Z.pow_succ_r by lia.
        pose proof (Z.mod_pos_bound i 256); pose proof (Z.div_mod i 256); lia.
      * right; rewrite Z.add_1_r, Z.pow_succ_r by lia.
        pose proof (Z.mul_div_le i 256).
        destruct Hlow as [->|Hlow]; [simpl; lia|]. nia.
    + exists 0; repeat split; try lia; left; reflexivity.
Qed.

Lemma lengthLength_spec (n : Z) :
  1 <= n ->
  1 <= Asn1.lengthLength n /\ 256 ^ (Asn1.lengthLength n - 1) <= n < 256 ^ Asn1.lengthLength n.
Proof.
  intros Hn; unfold Asn1.lengthLength.
  destruct (lengthLength_loop_spec (Z.to_nat n) 1 n) as (j & -> & Hj & Hlt & Hlow).
  { split; [lia|]. rewrite Z2Nat.id by lia.
    pose proof (Z.pow_gt_lin_r 256 n ltac:(lia) ltac:(lia)).
    pose proof (Z.pow_le_mono_r 256 n (n + 1) ltac:(lia) ltac:(lia)). lia. }
  replace (1 + j - 1) with j by lia; replace (1 + j) with (j + 1) by lia.
  destruct Hlow as [->|Hlow]; simpl; lia.
Qed.

Lemma appendLength_loop_snoc (m : nat) (i : Z) :
  Asn1.appendLength_loop (S m) i = Asn1.appendLength_loop m (Z.shiftr i 8) ++ [i mod 256].
Proof.
  induction m as [|m IH].
  - simpl; rewrite Z.shiftr_0_r; reflexivity.
  - change (Asn1.appendLength_loop (S (S m)) i)
      with ((Z.shiftr i (8 * Z.of_nat (S m)) mod 256) :: Asn1.appendLength_loop (S m) i).
    change (Asn1.appendLength_loop (S m) (Z.shiftr i 8))
      with ((Z.shiftr (Z.shiftr i 8) (8 * Z.of_nat m) mod 256)
              :: Asn1.appendLength_loop m (Z.shiftr i 8)).
    rewrite IH, <- app_comm_cons; f_equal.
    rewrite Z.shiftr_shiftr by lia; f_equal; f_equal; lia.
Qed.

Lemma appendLength_loop_length (m : nat) (i : Z) : List.length (Asn1.appendLength_loop m i) = m.
Proof. induction m; simpl; auto. Qed.

Lemma appendLength_loop_bytes (m : nat) (i : Z) :
  Forall (fun d => 0 <= d < 256) (Asn1.appendLength_loop m i).
Proof.
  induction m; simpl; constructor; auto; apply Z.mod_pos_bound; lia.
Qed.

Lemma be_value_snoc (l : bytes) (x : Z) : be_value (l ++ [x]) = be_value l * 256 + x.
Proof. unfold be_value; rewrite fold_left_app; reflexivity. Qed.

Lemma appendLength_loop_value (m : nat) (i : Z) :
  0 <= i < 256 ^ Z.of_nat m -> be_value (Asn1.appendLength_loop m i) = i.
Proof.
  revert i; induction m as [|m IH]; intros i Hi; [simpl in *; unfold be_value; simpl; lia|].
  rewrite appendLength_loop_snoc, be_value_snoc, Z.shiftr_div_pow2 by lia.
  change (2 ^ 8) with 256.
  rewrite IH.
  - pose proof (Z.div_mod i 256); lia.
  - split; [apply Z.div_pos; lia|].
    apply Z.div_lt_upper_bound; [lia|].
    rewrite <- Z.pow_succ_r by lia; rewrite <- Nat2Z.inj_succ; lia.
Qed.

Lemma appendLength_loop_head (m : nat) (i : Z) :
  256 ^ Z.of_nat m <= i < 256 ^ Z.of_nat (S m) -> hd 0 (Asn1.appendLength_loop (S m) i) <> 0.
Proof.
  intros Hi.
  change (hd 0 (Asn1.appendLength_loop (S m) i)) with (Z.shiftr i (8 * Z.of_nat m) mod 256).
  rewrite Z.shiftr_div_pow2 by lia.
  rewrite Z.pow_mul_r by lia; change (2 ^ 8) with 256.
  rewrite Nat2Z.inj_succ, Z.pow_succ_r in Hi by lia.
  assert (Hq : 1 <= i / 256 ^ Z.of_nat m < 256).
  { pose proof (Z.pow_pos_nonneg 256 (Z.of_nat m) ltac:(lia) ltac:(lia)).
    split; [apply Z.div_le_lower_bound; lia | apply Z.div_lt_upper_bound; lia]. }
  rewrite Z.mod_small by lia; lia.
Qed.

(** the length octets [Asn1.appendTagAndLength] writes are DER's *)
Lemma appendLength_der (n : Z) :
  0 <= n < 2 ^ 63 ->
  der_length_octets n
    (if n >=? 128 then Z.lor 128 (Asn1.lengthLength n) :: Asn1.appendLength_loop (Z.to_nat (Asn1.lengthLength n)) n
     else [n]).
Proof.
  intros Hn; destruct (Z.geb_spec n 128) as [Hge|Hlt]; [right|left; split; [lia|reflexivity]].
  split; [lia|].
  destruct (lengthLength_spec n ltac:(lia)) as (Hk & Hlow & Hhigh).
  set (k := Asn1.lengthLength n) in *.
  assert (Hk8 : k <= 8).
  { destruct (Z.le_gt_cases k 8) as [|Hgt]; [assumption|].
    pose proof (Z.pow_le_mono_r 256 8 (k - 1) ltac:(lia) ltac:(lia)).
    change (256 ^ 8) with (2 ^ 64) in *; lia. }
  exists (Asn1.appendLength_loop (Z.to_nat k) n).
  rewrite appendLength_loop_length, Z2Nat.id by lia.
  repeat split.
  - f_equal. assert (Hcase : k = 1 \/ k = 2 \/ k = 3 \/ k = 4 \/ k = 5 \/ k = 6 \/ k = 7 \/ k = 8) by lia.
    destruct Hcase as [->|[->|[->|[->|[->|[->|[->| ->]]]]]]]; reflexivity.
  - lia.
  - apply appendLength_loop_bytes.
  - replace (Z.to_nat k) with (S (Z.to_nat (k - 1))) by lia.
    apply appendLength_loop_head.
    rewrite Nat2Z.inj_succ, Z2Nat.id by lia; replace (Z.succ (k - 1)) with k by lia; lia.
  - apply appendLength_loop_value; rewrite Z2Nat.id by lia; lia.
Qed.

(** a header written by [Asn1.appendTagAndLength] for a low tag, followed by the
    contents, is the DER encoding of the value *)
Lemma appendTagAndLength_der (cls tag : Z) (comp : bool) (content : bytes) :
  0 <= tag < 31 ->
  Z.lor (if comp then Z.lor (Z.shiftl cls 6) 32 else Z.shiftl cls 6) tag =
    cls * 64 + (if comp then 32 else 0) + tag ->
  Z.of_nat (List.length content) < 2 ^ 63 ->
  is_der_tlv cls tag comp content
    (Asn1.appendTagAndLength [] (Asn1.mkTL cls tag (Z.of_nat (List.length content)) comp) ++ content).
Proof.
  intros Htag Hid Hlen.
  exists (if Z.of_nat (List.length content) >=? 128
          then Z.lor 128 (Asn1.lengthLength (Z.of_nat (List.length content)))
               :: Asn1.appendLength_loop (Z.to_nat (Asn1.lengthLength (Z.of_nat (List.length content))))
                    (Z.of_nat (List.length content))
          else [Z.of_nat (List.length content)]).
  split; [apply appendLength_der; lia|].
  unfold Asn1.appendTagAndLength;
    cbn [Asn1.tl_class Asn1.tl_tag Asn1.tl_length Asn1.tl_isCompound].
  destruct (Z.geb_spec tag 31) as [|_]; [lia|].
  rewrite Hid.
  destruct (Z.of_nat (List.length content) >=? 128); unfold Asn1.appendLength;
    cbn [app]; rewrite ?app_assoc; reflexivity.
Qed.

Lemma Forall2_map_r {A B : Type} (P : A -> B -> Prop) (f : A -> B) (l : list A) :
  (forall x, In x l -> P x (f x)) -> Forall2 P l (map f l).
Proof.
  induction l as [|x l IH]; intros H; simpl; constructor.
  - apply H; left; reflexivity.
  - apply IH; intros y Hy; apply H; right; exact Hy.
Qed.

Lemma length_In_concat {A : Type} (x : list A) (L : list (list A)) :
  In x L -> (List.length x <= List.length (List.concat L))%nat.
Proof.
  induction L as [|y L IH]; simpl; [tauto|].
  rewrite length_app; intros [->|H]; [lia|specialize (IH H); lia].
Qed.

Lemma marshal_sanRawValue (san : string) :
  Asn1.marshalRawValue (sanRawValue san) =
  Asn1.appendTagAndLength []
    (Asn1.mkTL 2 2 (Z.of_nat (List.length (bytes_of_string san))) false)
  ++ bytes_of_string san.
Proof. reflexivity. Qed.

Lemma add_lor_disjoint (a b : Z) : Z.land a b = 0 -> a + b = Z.lor a b.
Proof. intros H; rewrite Z.add_nocarry_lxor, Z.lxor_lor by exact H; reflexivity. Qed.

Lemma land_shifted_byte (a d : Z) : 0 <= d < 256 -> Z.land (a * 256) d = 0.
Proof.
  intros Hd.
  replace d with (Z.land d (Z.ones 8)) at 1
    by (rewrite Z.land_ones by lia; apply Z.mod_small; lia).
  rewrite (Z.land_comm d), Z.land_assoc, Z.land_ones by lia.
  change (2 ^ 8) with 256; rewrite Z.mod_mul by lia; reflexivity.
Qed.

Lemma lor_byte (a d : Z) : 0 <= d < 256 -> Z.lor (Z.shiftl a 8) d = a * 256 + d.
Proof.
  intros Hd; rewrite Z.shiftl_mul_pow2 by lia; change (2 ^ 8) with 256.
  symmetry; apply add_lor_disjoint, land_shifted_byte; exact Hd.
Qed.

Lemma land_low7 (m : Z) : 0 <= m < 128 -> Z.land m 128 = 0 /\ Z.land m 127 = m.
Proof.
  intros Hm; split.
  - replace m with (Z.land m (Z.ones 7))
      by (rewrite Z.land_ones by lia; apply Z.mod_small; lia).
    rewrite <- Z.land_assoc; change (Z.land (Z.ones 7) 128) with 0; apply Z.land_0_r.
  - change 127 with (Z.ones 7); rewrite Z.land_ones by lia; apply Z.mod_small; lia.
Qed.

Lemma land_high7 (m : Z) : 0 <= m < 128 -> Z.land (128 + m) 128 = 128 /\ Z.land (128 + m) 127 = m.
Proof.
  intros Hm; destruct (land_low7 m Hm) as [H0 H1].
  rewrite add_lor_disjoint by (rewrite Z.land_comm; exact H0).
  rewrite !Z.land_lor_distr_l, H0, H1; split; reflexivity.
Qed.

Lemma skipn_cons_inv {A : Type} (bs : list A) (off : nat) (x : A) (l : list A) :
  skipn off bs = x :: l -> nth_error bs off = Some x /\ skipn (S off) bs = l.
Proof.
  revert off; induction bs as [|y bs IH]; intros off H.
  - destruct off; discriminate H.
  - destruct off as [|off]; simpl in *.
    + injection H as -> ->; split; reflexivity.
    + apply IH; exact H.
Qed.

Lemma fold_be_ge (ds : bytes) (a : Z) :
  0 <= a -> Forall (fun d => 0 <= d < 256) ds -> a <= fold_left (fun acc d => acc * 256 + d) ds a.
Proof.
  revert a; induction ds as [|d ds IH]; intros a Ha HF; simpl; [lia|].
  inversion HF as [|? ? Hd HF']; subst.
  specialize (IH (a * 256 + d) ltac:(lia) HF'); lia.
Qed.

(** the long-form length loop of the decoder reads back a big-endian length *)
Lemma parseLength_loop_be (ds rest bs : bytes) (off : nat) (acc : Z) :
  skipn off bs = ds ++ rest -> 0 <= acc -> Forall (fun d => 0 <= d < 256) ds ->
  fold_left (fun a d => a * 256 + d) ds acc < 2 ^ 31 ->
  (acc <> 0 \/ hd 0 ds <> 0) ->
  Asn1.parseLength_loop (List.length ds) bs off acc =
  inr (fold_left (fun a d => a * 256 + d) ds acc, (off + List.length ds)%nat).
Proof.
  revert off acc; induction ds as [|d ds IH]; intros off acc Hs Ha HF Hv Hnz.
  - simpl; rewrite Nat.add_0_r; reflexivity.
  - inversion HF as [|? ? Hd HF']; subst.
    destruct (skipn_cons_inv bs off d (ds ++ rest) Hs) as [Hn Hs'].
    cbn [List.length Asn1.parseLength_loop]; rewrite Hn.
    cbn [fold_left] in Hv.
    pose proof (fold_be_ge ds (acc * 256 + d) ltac:(lia) HF').
    destruct (Z.geb_spec acc (2 ^ 23)) as [|_]; [lia|].
    rewrite lor_byte by exact Hd.
    destruct (Z.eqb_spec (acc * 256 + d) 0) as [Hz|Hnz0]; [simpl in Hnz; lia|].
    rewrite (IH (S off) (acc * 256 + d) Hs' ltac:(lia) HF' Hv (or_introl Hnz0)).
    simpl; do 2 f_equal; lia.
Qed.

(** the decoder reads back a SEQUENCE header with DER length octets *)
Lemma parse_seq_header (n : Z) (L rest : bytes) :
  der_length_octets n L -> n < 2 ^ 31 ->
  Asn1.parseTagAndLength ([48] ++ L ++ rest) 0 = inr (Asn1.mkTL 0 16 n true, S (List.length L)).
Proof.
  intros [[Hn ->]|[Hn (ds & -> & Hlen & HF & Hhd & Hv)]] Hb.
  - destruct (land_low7 n Hn) as [H0 H1].
    unfold Asn1.parseTagAndLength; cbn [nth_error app].
    change (Z.land 48 31 =? 31) with false; cbv iota beta zeta; cbn [nth_error].
    rewrite H0, H1; reflexivity.
  - destruct ds as [|d0 ds0]; [unfold be_value in Hv; simpl in Hv; lia|].
    set (ds := d0 :: ds0) in *.
    destruct (land_high7 (Z.of_nat (List.length ds)) ltac:(lia)) as [H0 H1].
    unfold Asn1.parseTagAndLength; cbn [nth_error app].
    change (Z.land 48 31 =? 31) with false; cbv iota beta zeta; cbn [nth_error].
    rewrite H0, H1; cbn [Z.eqb].
    destruct (Z.eqb_spec (Z.of_nat (List.length ds)) 0) as [Hz|_]; [simpl in Hz; lia|].
    rewrite Nat2Z.id.
    rewrite (parseLength_loop_be ds rest (48 :: (128 + Z.of_nat (List.length ds)) :: ds ++ rest)
               2 0 eq_refl ltac:(lia) HF) by (fold (be_value ds); lia || (right; exact Hhd)).
    fold (be_value ds); rewrite Hv.
    destruct (Z.ltb_spec n 128) as [|_]; [lia|].
    reflexivity.
Qed.

Lemma seq_header_shape (n : Z) :
  Asn1.appendTagAndLength [] (Asn1.mkTL 0 16 n true) =
  [48] ++ (if n >=? 128
           then Z.lor 128 (Asn1.lengthLength n) :: Asn1.appendLength_loop (Z.to_nat (Asn1.lengthLength n)) n
           else [n]).
Proof.
  unfold Asn1.appendTagAndLength; cbn [Asn1.tl_class Asn1.tl_tag Asn1.tl_length Asn1.tl_isCompound].
  destruct (n >=? 128); reflexivity.
Qed.

Lemma marshal_sanRawValue_head (san : string) :
  exists t, Asn1.marshalRawValue (sanRawValue san) = 130 :: t.
Proof.
  rewrite marshal_sanRawValue; unfold Asn1.appendTagAndLength;
    cbn [Asn1.tl_class Asn1.tl_tag Asn1.tl_length Asn1.tl_isCompound].
  destruct (Z.of_nat (List.length (bytes_of_string san)) >=? 128); eexists; reflexivity.
Qed.

(** bytes starting with a context-specific identifier are refused where a
    [[]RawValue] (a SEQUENCE) is expected *)
Lemma UnmarshalRaws_context_specific (t : bytes) :
  exists e, Asn1.UnmarshalRaws (130 :: t) = inl e.
Proof.
  unfold Asn1.UnmarshalRaws, Asn1.parseRawValues, Asn1.parseTagAndLength.
  cbn [nth_error List.length Nat.eqb].
  change (Z.land 130 31 =? 31) with false; cbv iota beta zeta.
  destruct (nth_error (130 :: t) 1) as [b|]; [|eexists; reflexivity].
  destruct (Z.land b 128 =? 0); [eexists; reflexivity|].
  destruct (Z.land b 127 =? 0); [eexists; reflexivity|].
  destruct (Asn1.parseLength_loop _ _ _ _) as [e|[len off]]; [eexists; reflexivity|].
  destruct (len <? 128); eexists; reflexivity.
Qed.

(** what [printCSRInfo] extracts from the SAN extension [main] builds *)
Lemma sanNamesOfValue_sanExtension (sans : list string) :
  sans <> [] -> Z.of_nat (List.length (ext_Value (sanExtension sans))) < 2 ^ 31 ->
  sanNamesOfValue (ext_Value (sanExtension sans)) = [].
Proof.
  intros Hne Hlen.
  set (body := List.concat (map Asn1.marshalRawValue (map sanRawValue sans))).
  set (N := Z.of_nat (List.length body)).
  set (L := if N >=? 128
            then Z.lor 128 (Asn1.lengthLength N) :: Asn1.appendLength_loop (Z.to_nat (Asn1.lengthLength N)) N
            else [N]).
  assert (Hval : ext_Value (sanExtension sans) = [48] ++ L ++ body)
    by (change (ext_Value (sanExtension sans))
          with (Asn1.appendTagAndLength [] (Asn1.mkTL 0 16 N true) ++ body);
        rewrite seq_header_shape; reflexivity).
  rewrite Hval in *.
  rewrite !length_app in Hlen.
  assert (Hder : der_length_octets N L) by (apply appendLength_der; lia).
  assert (Hhdr := parse_seq_header N L body Hder ltac:(lia)).
  unfold sanNamesOfValue, Asn1.UnmarshalRaw, Asn1.parseRawValue.
  replace (Nat.eqb 0 (List.length ([48] ++ L ++ body))) with false by reflexivity.
  rewrite Hhdr.
  assert (Hinv : Asn1.invalidLength (S (List.length L)) N (List.length ([48] ++ L ++ body)) = false).
  { unfold Asn1.invalidLength; apply orb_false_intro; apply Z.ltb_ge;
      rewrite ?length_app; simpl List.length; unfold N; lia. }
  cbn [Asn1.tl_length Asn1.tl_class Asn1.tl_tag Asn1.tl_isCompound]; rewrite Hinv.
  assert (Hhi : (S (List.length L) + Z.to_nat N)%nat = List.length ([48] ++ L ++ body))
    by (rewrite !length_app; simpl; lia).
  rewrite Hhi, skipn_all.
  cbn [Asn1.Class Asn1.Tag Asn1.Bytes].
  assert (Hslice : Asn1.slice ([48] ++ L ++ body) (S (List.length L)) (List.length ([48] ++ L ++ body)) = body).
  { unfold Asn1.slice.
    replace ([48] ++ L ++ body) with (([48] ++ L) ++ body) by (rewrite app_assoc; reflexivity).
    rewrite skipn_app, length_app; simpl List.length.
    rewrite skipn_all2 by (simpl; lia); rewrite Nat.sub_diag; simpl skipn.
    apply firstn_all2; rewrite ?length_app; simpl; lia. }
  change (Asn1.ClassUniversal) with 0; change (Asn1.TagSequence) with 16.
  rewrite Hslice; simpl (0 =? 0); simpl (16 =? 16); cbv iota beta.
  destruct sans as [|san sans']; [contradiction|].
  destruct (marshal_sanRawValue_head san) as [t Ht].
  subst body; cbn [map List.concat]; rewrite Ht; cbn [app].
  destruct (UnmarshalRaws_context_specific (t ++ List.concat (map Asn1.marshalRawValue (map sanRawValue sans'))))
    as [e He].
  rewrite He; reflexivity.
Qed.

(** [main_io] reads the answers as [main_generate] does: its key size, CSR
    template and certificate template are [main_generate]'s, its output
    prefix is [filePrefixOf] *)
Lemma main_io_generate (PrivKey : Type) generateKey createCertificateRequest
    (marshalPKCS1PrivateKey : PrivKey -> bytes) randInt createCertificateDER mkdirAll filepathJoin
    osCreate pemEncode (fl : CmdFlags) (input : list string) (now : Z) (evs : list Event) :
  main_io PrivKey generateKey createCertificateRequest marshalPKCS1PrivateKey randInt
    createCertificateDER mkdirAll filepathJoin osCreate pemEncode fl input now evs =
  (let g := main_generate (genFlags fl) input now in
   let dir := outputDirFlag fl in
   let path := outputPath filepathJoin dir (filePrefixOf input) in
   privateKey <- orExit (generateKey (gen_keySize (g 0))) "Error generating private key: " ;;
   csrBytes <- orExit (createCertificateRequest (gen_csr (g 0)) privateKey) "Error creating CSR: " ;;
   (if negb (String.eqb dir EmptyString)
    then emit (EvMkdirAll dir) ;; orExitErr (mkdirAll dir) "Error creating output directory: "
    else io_ret tt) ;;
   createFile osCreate (path ".key"%string) "Error creating key file: " ;;
   encodeFile pemEncode (path ".key"%string) (mkBlock "RSA PRIVATE KEY" (marshalPKCS1PrivateKey privateKey))
     "Error encoding private key: " ;;
   createFile osCreate (path ".csr"%string) "Error creating CSR file: " ;;
   encodeFile pemEncode (path ".csr"%string) (mkBlock "CERTIFICATE REQUEST" csrBytes) "Error encoding CSR: " ;;
   match gen_certTemplate (g 0) with
   | None => io_ret tt
   | Some _ =>
     serialNumber <- orExit randInt "Failed to generate serial number: " ;;
     match gen_certTemplate (g serialNumber) with
     | None => io_ret tt
     | Some ct =>
       derBytes <- orExit (createCertificateDER ct privateKey) "Failed to create certificate: " ;;
       createFile osCreate (path ".crt"%string) "Failed to create certificate file: " ;;
       encodeFile pemEncode (path ".crt"%string) (mkBlock "CERTIFICATE" derBytes) "Failed to encode certificate: "
     end
   end)%io evs.
Proof.
  unfold main_io, main_generate, filePrefixOf, outputPath.
  destruct input as [|l0 [|l1 [|l2 [|l3 [|l4 [|l5 [|l6 [|l7 [|l8 input]]]]]]]]];
  cbn [readString nth];
  destruct (selectValidity _ _) as [[b d] r]; destruct (readString r); destruct (String.eqb (outputDirFlag fl) EmptyString); destruct b; reflexivity.
Qed.

(** whether [main_generate] builds a certificate does not depend on the serial *)
Lemma certTemplate_some_any (gfl : Flags) (input : list string) (now s s' : Z) :
  gen_certTemplate (main_generate gfl input now s) = None <->
  gen_certTemplate (main_generate gfl input now s') = None.
Proof.
  unfold main_generate; destruct_lets; destruct b; simpl; split; congruence.
Qed.

(* ================================================================== *)
(** * Claims *)

(** C3: the self-signed certificate's DNS names are the SAN list, with the
    CommonName appended at the end exactly when it contains a dot and is
    not already among the SANs; otherwise they are the SAN list itself. *)
Theorem selfsigned_dnsnames (fl : Flags) (input : list string) (now serialNumber : Z) (c : Certificate) :
  gen_cert (main_generate fl input now serialNumber) = Some c ->
  let g := main_generate fl input now serialNumber in
  let sans := gen_sans g in
  let cn := CommonName (gen_subject g) in
  (cert_DNSNames c = sans ++ [cn] <-> contains_dot cn = true /\ ~ In cn sans) /\
  (~ (contains_dot cn = true /\ ~ In cn sans) -> cert_DNSNames c = sans).
Proof.
  intros H; destruct (main_generate_cert _ _ _ _ _ H) as (t & _ & -> & ->).
  cbv zeta.
  change (cert_DNSNames (createCertificate ?t ?t)) with (ct_DNSNames t); rewrite certTemplate_DNSNames.
  generalize (gen_sans (main_generate fl input now serialNumber))
    (CommonName (gen_subject (main_generate fl input now serialNumber))).
  clear H; intros sans cn.
  pose proof (app_single_neq sans cn) as Hneq.
  destruct (contains sans cn) eqn:Hc; simpl.
  - apply contains_In in Hc.
    split; [split; [intros E; exfalso; exact (Hneq (eq_sym E)) | tauto] | reflexivity].
  - assert (Hn : ~ In cn sans) by (rewrite <- contains_In; congruence).
    destruct (contains_dot cn) eqn:Hd; simpl.
    + split; [split; [intros _; split; [reflexivity | exact Hn] | intros _; reflexivity]
             | intros F; exfalso; tauto].
    + split; [split; [intros E; exfalso; exact (Hneq (eq_sym E)) | intros [F _]; discriminate F]
             | reflexivity].
Qed.

Lemma selfsigned_dnsnames_witness :
  let g := main_generate (mkFlags false 365)
             ["example.com"; "Acme"; "IT"; "US"; "CA"; "SF"; "a@example.com"; "2048"; "cert"; "y"; "730";
              "y"; "www.example.com"; EmptyString]%string 1700000000000000000 1 in
  exists c, gen_cert g = Some c /\ cert_DNSNames c = gen_sans g ++ [CommonName (gen_subject g)].
Proof.
  intros g.
  destruct (gen_cert g) as [c|] eqn:E; [|vm_compute in E; discriminate E].
  exists c; split; [reflexivity|].
  apply (proj2 (proj1 (selfsigned_dnsnames _ _ _ _ c E))).
  vm_compute; split; [reflexivity|].
  intros [F|F]; [discriminate F|exact F].
Defined.

(** C6: every self-signed certificate the tool produces has its subject as
    issuer, so the decoder's self-signed flag (equality of the rendered
    subject and issuer) is true; its key usage is exactly Digital Signature
    plus Key Encipherment and its extended key usage exactly [ServerAuth],
    and the decoder reports exactly these. *)
Theorem selfsigned_flags_usages (nameString : Name -> string)
    (fl : Flags) (input : list string) (now serialNumber : Z) (c : Certificate) :
  gen_cert (main_generate fl input now serialNumber) = Some c ->
  cert_Subject c = cert_Issuer c /\
  cs_SelfSigned (printCertificateInfo nameString c) = true /\
  cert_KeyUsage c = Z.lor KeyUsageDigitalSignature KeyUsageKeyEncipherment /\
  cs_KeyUsage (printCertificateInfo nameString c) = ["Digital Signature"; "Key Encipherment"]%string /\
  cert_ExtKeyUsage c = [ExtKeyUsageServerAuth] /\
  cs_ExtKeyUsage (printCertificateInfo nameString c) = ["Server Authentication"]%string.
Proof.
  intros H; destruct (main_generate_cert _ _ _ _ _ H) as (t & _ & -> & ->).
  unfold printCertificateInfo; simpl.
  rewrite String.eqb_refl; repeat split.
Qed.

Lemma selfsigned_flags_usages_witness :
  let g := main_generate (mkFlags true 730) ["example.com"]%string 1700000000000000000 1 in
  exists c, gen_cert g = Some c /\ cert_Subject c = cert_Issuer c /\
    cs_SelfSigned (printCertificateInfo (fun n => CommonName n) c) = true.
Proof.
  intros g.
  destruct (gen_cert g) as [c|] eqn:E; [|vm_compute in E; discriminate E].
  exists c; split; [reflexivity|].
  destruct (selfsigned_flags_usages (fun n => CommonName n) _ _ _ _ c E) as (H1 & H2 & _).
  split; [exact H1 | exact H2].
Defined.

Lemma wrap64_range (z : Z) : - 2 ^ 63 <= wrap64 z < 2 ^ 63.
Proof.
  unfold wrap64; pose proof (Z.mod_pos_bound (z + 2 ^ 63) (2 ^ 64) ltac:(lia)); lia.
Qed.

(** two instants at least a second apart stay apart once encoded *)
Lemma toSeconds_sep (t u : Z) : t + 10 ^ 9 <= u -> toSeconds t < toSeconds u.
Proof.
  intros H; pose proof (toSeconds_mono _ _ H) as Hm.
  unfold toSeconds in *.
  replace (t + 10 ^ 9) with (t + 1 * 10 ^ 9) in Hm by lia.
  rewrite Z.div_add in Hm by lia; lia.
Qed.

(** C9 (code bug): NotAfter is NotBefore plus exactly d * 24h precisely
    when |d| <= 106751.  [time.Duration(validDays) * 24 * time.Hour] is
    int64 arithmetic: for a larger |d| the product wraps around, and the
    certificate's NotAfter lands elsewhere (for d = 106752, before its
    NotBefore). *)
Theorem validity_exact (fl : Flags) (input : list string) (now serialNumber : Z) (c : Certificate) :
  gen_cert (main_generate fl input now serialNumber) = Some c ->
  (cert_NotAfter c = cert_NotBefore c + gen_validDays (main_generate fl input now serialNumber) * 24 * Hour <->
   -106751 <= gen_validDays (main_generate fl input now serialNumber) <= 106751).
Proof.
  intros H; destruct (main_generate_cert _ _ _ _ _ H) as (t & _ & -> & ->).
  set (d := gen_validDays (main_generate fl input now serialNumber)).
  cbn [cert_NotAfter cert_NotBefore createCertificate certTemplate ct_NotAfter ct_NotBefore].
  unfold timeAdd; split.
  - intros E.
    rewrite <- toSeconds_add_days in E.
    pose proof (wrap64_range (wrap64 (wrap64 d * 24) * Hour)) as Hdur.
    fold (validityDuration d) in Hdur.
    destruct (Z.le_gt_cases (-106751) d), (Z.le_gt_cases d 106751); try (split; assumption);
      exfalso; unfold Hour in *.
    + assert (Hs : now + validityDuration d + 10 ^ 9 <= now + d * 24 * (3600 * 10 ^ 9)) by lia.
      apply toSeconds_sep in Hs; lia.
    + assert (Hs : now + d * 24 * (3600 * 10 ^ 9) + 10 ^ 9 <= now + validityDuration d) by lia.
      apply toSeconds_sep in Hs; lia.
    + lia.
  - intros Hd; rewrite validityDuration_small by exact Hd.
    apply toSeconds_add_days.
Qed.

Lemma validity_exact_witness :
  let g := main_generate (mkFlags true 106752) ["example.com"]%string 1700000000000000000 1 in
  exists c, gen_cert g = Some c /\ cert_NotAfter c <> cert_NotBefore c + 106752 * 24 * Hour.
Proof.
  intros g.
  destruct (gen_cert g) as [c|] eqn:E; [|vm_compute in E; discriminate E].
  exists c; split; [reflexivity|].
  intros Heq.
  destruct (proj1 (validity_exact _ _ _ _ c E) Heq) as [_ Hle].
  apply Hle; vm_compute; reflexivity.
Defined.

(** C10 (as stated): with [-s], every zero or negative [-days] value gives
    a certificate whose NotAfter is at or before its NotBefore.  Refuted at
    [-days=-106752]: the value is accepted unvalidated, but the int64
    duration wraps around to a positive one. *)
Lemma flag_days_unvalidated_counterexample :
  let g := main_generate (mkFlags true (-106752)) ["example.com"]%string 1700000000000000000 1 in
  gen_validDays g = -106752 /\
  exists c, gen_cert g = Some c /\ cert_NotBefore c < cert_NotAfter c.
Proof.
  intros g; split; [reflexivity|].
  destruct (gen_cert g) as [c|] eqn:E; [|vm_compute in E; discriminate E].
  exists c; split; [reflexivity|].
  vm_compute in E; injection E as <-; vm_compute; reflexivity.
Qed.

(** C10 (amended): the positivity check on the validity period sits on the
    prompt path only: a non-blank typed answer always yields a positive
    period, while with [-s] a [-days] value d with -106751 <= d <= 0 is
    used unvalidated and gives a certificate whose NotAfter is at or before
    its NotBefore. *)
Theorem flag_days_unvalidated (d : Z) (input : list string) (now serialNumber : Z) :
  -106751 <= d <= 0 ->
  (let g := main_generate (mkFlags true d) input now serialNumber in
   gen_validDays g = d /\
   exists c, gen_cert g = Some c /\ cert_NotAfter c <= cert_NotBefore c) /\
  (forall (days : Z) (answer typed : string) (rest : list string),
     trimSpace typed <> EmptyString ->
     let '(createSelfsigned, validDays, _) :=
         selectValidity (mkFlags false days) (answer :: typed :: rest) in
     createSelfsigned = true -> 0 < validDays).
Proof.
  intros Hd; split.
  - destruct (main_generate_flag d input now serialNumber) as [Hv Hc]; cbv zeta in *.
    split; [exact Hv|].
    eexists; split; [exact Hc|].
    simpl; rewrite validityDuration_small by lia.
    apply toSeconds_mono; unfold timeAdd, Hour; nia.
  - intros days answer typed rest Ht.
    unfold selectValidity; simpl.
    destruct (String.eqb (trimSpace (toLower answer)) "y" || String.eqb (trimSpace (toLower answer)) "yes")%string;
      simpl; [|discriminate].
    apply String.eqb_neq in Ht; rewrite Ht; simpl.
    destruct (match sscanf_d (trimSpace typed) with Some v => v | None => days end <=? 0) eqn:E;
      intros _; [lia | apply Z.leb_gt in E; exact E].
Qed.

Lemma flag_days_unvalidated_witness :
  let g := main_generate (mkFlags true (-5)) ["example.com"]%string 1700000000000000000 1 in
  gen_validDays g = -5 /\ exists c, gen_cert g = Some c /\ cert_NotAfter c <= cert_NotBefore c.
Proof.
  refine (proj1 (flag_days_unvalidated (-5) ["example.com"]%string 1700000000000000000 1 _)).
  lia.
Defined.

Ltac keysize_valid :=
  simpl; split; [auto|]; split;
  [ intros n Hn _; injection Hn as <-; reflexivity
  | intros Hno; exfalso; apply (Hno _ eq_refl); simpl; auto ].

(** C4: the key size used is always one of 2048, 3072, 4096; a requested
    size in that set is used unchanged, and any other request (1024,
    non-numeric or empty input) falls back to 2048. *)
Theorem keysize_fallback (keySizeStr : string) :
  In (selectKeySize keySizeStr) [2048; 3072; 4096] /\
  (forall n, requestedKeySize keySizeStr = Some n -> In n [2048; 3072; 4096] ->
             selectKeySize keySizeStr = n) /\
  ((forall n, requestedKeySize keySizeStr = Some n -> ~ In n [2048; 3072; 4096]) ->
   selectKeySize keySizeStr = 2048).
Proof.
  unfold selectKeySize, requestedKeySize.
  destruct (String.eqb keySizeStr EmptyString).
  - split; [simpl; auto|]. split; [discriminate | reflexivity].
  - destruct (sscanf_d keySizeStr) as [v|].
    + destruct (Z.eqb_spec v 2048) as [->|H1]; [keysize_valid|].
      destruct (Z.eqb_spec v 3072) as [->|H2]; [keysize_valid|].
      destruct (Z.eqb_spec v 4096) as [->|H3]; [keysize_valid|].
      simpl; split; [auto|]. split; [|reflexivity].
      intros n Hn Hin; injection Hn as <-; simpl in Hin; intuition congruence.
    + simpl; split; [auto|]. split; [discriminate | reflexivity].
Qed.

Lemma keysize_fallback_witness :
  selectKeySize "1024" = 2048 /\ selectKeySize "3072" = 3072 /\ selectKeySize "abc" = 2048.
Proof.
  split; [|split].
  - apply (proj2 (proj2 (keysize_fallback "1024"))).
    intros n Hn; vm_compute in Hn; injection Hn as <-; simpl; lia.
  - apply (proj1 (proj2 (keysize_fallback "3072"))); [reflexivity | simpl; tauto].
  - apply (proj2 (proj2 (keysize_fallback "abc"))).
    intros n Hn; vm_compute in Hn; discriminate Hn.
Defined.

Lemma filter_nonempty_id (l : list string) :
  Forall (fun v => v <> EmptyString) l ->
  filter (fun v => negb (String.eqb v EmptyString)) l = l.
Proof.
  induction 1 as [|v l Hv _ IH]; simpl; [reflexivity|].
  apply String.eqb_neq in Hv; rewrite Hv; simpl; f_equal; exact IH.
Qed.

Lemma string_length_app (a b : string) :
  String.length (a ++ b) = (String.length a + String.length b)%nat.
Proof. induction a; simpl; [reflexivity | rewrite IHa; reflexivity]. Qed.

Lemma partsWidth_app (a b : list string) :
  partsWidth (a ++ b) = (partsWidth a + partsWidth b)%nat.
Proof. induction a; simpl; [reflexivity | rewrite IHa; lia]. Qed.

Lemma join_length (l : list string) :
  l <> [] -> (String.length (join ", " l) + 2)%nat = partsWidth l.
Proof.
  induction l as [|p [|q r] IH]; intros Hl; [congruence | simpl; lia|].
  change (join ", " (p :: q :: r)) with (p ++ ", " ++ join ", " (q :: r))%string.
  rewrite string_length_app.
  change (String.length (", " ++ join ", " (q :: r))) with (S (S (String.length (join ", " (q :: r))))).
  change (partsWidth (p :: q :: r)) with (String.length p + 2 + partsWidth (q :: r))%nat.
  rewrite <- IH by discriminate; lia.
Qed.

Lemma forallb_nonempty (l : list string) :
  forallb (fun v => negb (String.eqb v EmptyString)) l = true <-> Forall (fun v => v <> EmptyString) l.
Proof.
  rewrite forallb_forall, Forall_forall; split; intros H v Hv; specialize (H v Hv).
  - intros E; subst v; discriminate H.
  - apply String.eqb_neq in H; rewrite H; reflexivity.
Qed.

(** dropping the empty values of one field narrows the rendering by at
    least four characters ([X=] and a separator) *)
Lemma partsWidth_filter (pre : string) (l : list string) :
  (2 <= String.length pre)%nat ->
  (partsWidth (map (fun v => pre ++ v)%string (filter (fun v => negb (String.eqb v EmptyString)) l))
   + (if forallb (fun v => negb (String.eqb v EmptyString)) l then 0 else 4)
   <= partsWidth (map (fun v => pre ++ v)%string l))%nat.
Proof.
  intros Hpre; induction l as [|v l IH]; simpl; [lia|].
  destruct (String.eqb v EmptyString) eqn:Ev; simpl.
  - apply String.eqb_eq in Ev; subst v; rewrite string_length_app.
    destruct (forallb _ l); simpl in *; lia.
  - rewrite string_length_app; destruct (forallb _ l); simpl in *; lia.
Qed.

(** [formatName] agrees with the renderer of the spec exactly on the
    names none of whose O, OU, C, ST and L values is empty *)
Lemma formatName_claimed_iff (name : Name) :
  formatName name = formatName_claimed name <->
  Forall (fun v => v <> EmptyString)
    (Organization name ++ OrganizationalUnit name ++ Country name ++ Province name ++ Locality name).
Proof.
  split.
  - intros Heq.
    destruct (Forall_dec (fun v => v <> EmptyString)
                (fun v => match string_dec v EmptyString with
                          | left e => right (fun n => n e) | right n => left n end)
                (Organization name ++ OrganizationalUnit name ++ Country name ++ Province name ++ Locality name))
      as [Hall|Hnot]; [exact Hall|exfalso].
    rewrite <- forallb_nonempty in Hnot.
    repeat rewrite forallb_app in Hnot.
    unfold formatName, formatName_claimed in Heq; cbv zeta in Heq.
    repeat rewrite <- app_assoc in Heq.
    set (cn := if String.eqb (CommonName name) EmptyString then [] else ["CN=" ++ CommonName name]%string) in Heq.
    set (nz := fun v => negb (String.eqb v EmptyString)) in Heq, Hnot.
    pose proof (partsWidth_filter "O=" (Organization name) ltac:(simpl; lia)) as W1.
    pose proof (partsWidth_filter "OU=" (OrganizationalUnit name) ltac:(simpl; lia)) as W2.
    pose proof (partsWidth_filter "C=" (Country name) ltac:(simpl; lia)) as W3.
    pose proof (partsWidth_filter "ST=" (Province name) ltac:(simpl; lia)) as W4.
    pose proof (partsWidth_filter "L=" (Locality name) ltac:(simpl; lia)) as W5.
    fold nz in W1, W2, W3, W4, W5.
    set (A := cn ++ map (fun org => "O=" ++ org)%string (Organization name)
                 ++ map (fun ou => "OU=" ++ ou)%string (OrganizationalUnit name)
                 ++ map (fun country => "C=" ++ country)%string (Country name)
                 ++ map (fun province => "ST=" ++ province)%string (Province name)
                 ++ map (fun locality => "L=" ++ locality)%string (Locality name)) in Heq.
    set (B := cn ++ map (fun v => "O=" ++ v)%string (filter nz (Organization name))
                 ++ map (fun v => "OU=" ++ v)%string (filter nz (OrganizationalUnit name))
                 ++ map (fun v => "C=" ++ v)%string (filter nz (Country name))
                 ++ map (fun v => "ST=" ++ v)%string (filter nz (Province name))
                 ++ map (fun v => "L=" ++ v)%string (filter nz (Locality name))) in Heq.
    assert (HW : (partsWidth B + 4 <= partsWidth A)%nat).
    { unfold A, B; repeat rewrite partsWidth_app.
      destruct (forallb nz (Organization name)), (forallb nz (OrganizationalUnit name)),
        (forallb nz (Country name)), (forallb nz (Province name)), (forallb nz (Locality name));
        simpl in Hnot; try discriminate Hnot; lia. }
    assert (HA : A <> []) by (intros E; rewrite E in HW; simpl in HW; lia).
    pose proof (join_length A HA) as LA.
    destruct B as [|b B'] eqn:EB.
    + simpl in Heq; rewrite Heq in LA; simpl in LA, HW; lia.
    + rewrite <- EB in Heq, HW; pose proof (join_length B ltac:(rewrite EB; discriminate)) as LB.
      rewrite Heq in LA; lia.
  - intros H; repeat rewrite Forall_app in H.
    destruct H as (Ho & Hou & Hc & Hst & Hl).
    unfold formatName, formatName_claimed.
    rewrite (filter_nonempty_id _ Ho), (filter_nonempty_id _ Hou), (filter_nonempty_id _ Hc),
      (filter_nonempty_id _ Hst), (filter_nonempty_id _ Hl).
    repeat rewrite <- app_assoc; reflexivity.
Qed.

(** the subject [main] builds: the trimmed answers to the first six
    prompts, each list field holding exactly one value *)
Lemma main_subject (fl : Flags) (input : list string) (now serialNumber : Z) :
  gen_subject (main_generate fl input now serialNumber) =
  mkName (trimSpace (nth 0 input EmptyString)) [trimSpace (nth 1 input EmptyString)]
    [trimSpace (nth 2 input EmptyString)] [trimSpace (nth 3 input EmptyString)]
    [trimSpace (nth 4 input EmptyString)] [trimSpace (nth 5 input EmptyString)].
Proof.
  destruct input as [|l0 [|l1 [|l2 [|l3 [|l4 [|l5 input]]]]]];
    unfold main_generate; cbn [readString fst snd nth]; destruct_lets; reflexivity.
Qed.

(** C5 (code bug): [formatName] omits a field only when its list holds no
    value; an empty value is rendered as an empty [X=] part.  So
    [formatName] is the renderer the spec describes exactly on names
    without empty O, OU, C, ST or L values.  [main] never builds such an
    empty list: it wraps each trimmed answer in a one-element list, blank
    or not, so the subject it renders is the spec's rendering exactly when
    none of the Organization, Organizational Unit, Country, State and
    Locality answers is blank. *)
Theorem formatName_blank_rendered :
  (forall name : Name,
     formatName name = formatName_claimed name <->
     Forall (fun v => v <> EmptyString)
       (Organization name ++ OrganizationalUnit name ++ Country name ++ Province name ++ Locality name)) /\
  (forall (fl : Flags) (input : list string) (now serialNumber : Z),
     let subj := gen_subject (main_generate fl input now serialNumber) in
     Organization subj = [trimSpace (nth 1 input EmptyString)] /\
     OrganizationalUnit subj = [trimSpace (nth 2 input EmptyString)] /\
     Country subj = [trimSpace (nth 3 input EmptyString)] /\
     Province subj = [trimSpace (nth 4 input EmptyString)] /\
     Locality subj = [trimSpace (nth 5 input EmptyString)] /\
     (formatName subj = formatName_claimed subj <->
      Forall (fun a => trimSpace a <> EmptyString)
        [nth 1 input EmptyString; nth 2 input EmptyString; nth 3 input EmptyString;
         nth 4 input EmptyString; nth 5 input EmptyString])).
Proof.
  split; [exact formatName_claimed_iff|].
  intros fl input now serialNumber subj; unfold subj; rewrite main_subject; cbn -[formatName formatName_claimed].
  do 5 (split; [reflexivity|]).
  rewrite formatName_claimed_iff; cbn [Organization OrganizationalUnit Country Province Locality app].
  exact (Forall_map trimSpace (fun v => v <> EmptyString) [_; _; _; _; _]).
Qed.

Ltac no_error_case H :=
  repeat match type of H with
         | _ \/ _ => destruct H as [H|H]
         | _ /\ _ => let H' := fresh in destruct H as [H' H]
         | exists _, _ => let x := fresh in destruct H as [x H]
         end;
  try discriminate; try congruence; try (exfalso; apply H; simpl; auto).

(* the error direction: exhibit the failing block *)
Ltac error_dir data ty b Hp k :=
  intros _; right; exists data; split; [reflexivity|right];
  exists (mkBlock ty b); split; [exact Hp|]; simpl; k.
(* the success direction: every listed failure is refuted *)
Ltac success_dir Hno Hp Hparse :=
  split; [intros [err F]; discriminate F|];
  intros [F|[d [Hd HH]]]; [apply Hno; exact F|];
  injection Hd as <-; destruct HH as [F|[blk [Hb H]]]; [rewrite Hp in F; discriminate F|];
  rewrite Hp in Hb; injection Hb as <-; simpl in H; rewrite Hparse in H; no_error_case H.

(** C7: [decodeFile] returns an error exactly when the file cannot be read,
    the data holds no PEM block, the first block's bytes fail to parse as
    the structure its type names, the type is none of the four supported
    ones, or a PKCS#8 key is not an RSA key; otherwise it returns nil. *)
Theorem decodeFile_error_iff (nameString : Name -> string)
    (readFile : string -> string + bytes) (pemDecode : bytes -> option Block)
    (parseCertificate : bytes -> string + Certificate)
    (parseCertificateRequest : bytes -> string + CertificateRequest)
    (parsePKCS1PrivateKey : bytes -> string + RSAPrivateKey)
    (parsePKCS8PrivateKey : bytes -> string + PrivateKey) (filePath : string) :
  (exists err, decodeFile nameString readFile pemDecode parseCertificate parseCertificateRequest
                 parsePKCS1PrivateKey parsePKCS8PrivateKey filePath = inl err) <->
  (exists e, readFile filePath = inl e) \/
  (exists data, readFile filePath = inr data /\
     (pemDecode data = None \/
      exists block, pemDecode data = Some block /\
        ((blk_Type block = "CERTIFICATE"%string /\
            exists e, parseCertificate (blk_Bytes block) = inl e) \/
         (blk_Type block = "CERTIFICATE REQUEST"%string /\
            exists e, parseCertificateRequest (blk_Bytes block) = inl e) \/
         (blk_Type block = "RSA PRIVATE KEY"%string /\
            exists e, parsePKCS1PrivateKey (blk_Bytes block) = inl e) \/
         (blk_Type block = "PRIVATE KEY"%string /\
            exists e, parsePKCS8PrivateKey (blk_Bytes block) = inl e) \/
         ~ In (blk_Type block) ["CERTIFICATE"; "CERTIFICATE REQUEST"; "RSA PRIVATE KEY"; "PRIVATE KEY"]%string \/
         (blk_Type block = "PRIVATE KEY"%string /\ parsePKCS8PrivateKey (blk_Bytes block) = inr PKOther)))).
Proof.
  unfold decodeFile.
  destruct (readFile filePath) as [e|data] eqn:Hr.
  { split; [intros _; left; eauto | intros _; eauto]. }
  assert (Hno : forall P : Prop, (exists e, inr data = @inl string bytes e) -> P)
    by (intros P [e' F]; discriminate F).
  destruct (pemDecode data) as [[ty b]|] eqn:Hp.
  2:{ split; [intros _; right; exists data; split; [reflexivity | left; exact Hp] | intros _; eauto]. }
  cbn [blk_Type blk_Bytes].
  destruct (String.eqb ty "CERTIFICATE") eqn:H1;
    [apply String.eqb_eq in H1; subst ty | apply String.eqb_neq in H1].
  { destruct (parseCertificate b) as [e|cert] eqn:Hparse.
    - split; [error_dir data "CERTIFICATE"%string b Hp ltac:(left; split; [reflexivity | eauto]) | eauto].
    - success_dir Hno Hp Hparse. }
  destruct (String.eqb ty "CERTIFICATE REQUEST") eqn:H2;
    [apply String.eqb_eq in H2; subst ty | apply String.eqb_neq in H2].
  { destruct (parseCertificateRequest b) as [e|csr] eqn:Hparse.
    - split; [error_dir data "CERTIFICATE REQUEST"%string b Hp ltac:(right; left; split; [reflexivity | eauto]) | eauto].
    - success_dir Hno Hp Hparse. }
  destruct (String.eqb ty "RSA PRIVATE KEY") eqn:H3;
    [apply String.eqb_eq in H3; subst ty | apply String.eqb_neq in H3].
  { destruct (parsePKCS1PrivateKey b) as [e|key] eqn:Hparse.
    - split; [error_dir data "RSA PRIVATE KEY"%string b Hp ltac:(do 2 right; left; split; [reflexivity | eauto]) | eauto].
    - success_dir Hno Hp Hparse. }
  destruct (String.eqb ty "PRIVATE KEY") eqn:H4;
    [apply String.eqb_eq in H4; subst ty | apply String.eqb_neq in H4].
  { destruct (parsePKCS8PrivateKey b) as [e|[key|]] eqn:Hparse.
    - split; [error_dir data "PRIVATE KEY"%string b Hp ltac:(do 3 right; left; split; [reflexivity | eauto]) | eauto].
    - success_dir Hno Hp Hparse.
    - split; [error_dir data "PRIVATE KEY"%string b Hp ltac:(do 5 right; split; [reflexivity | exact Hparse]) | eauto]. }
  split; [|eauto].
  error_dir data ty b Hp ltac:(do 4 right; left; simpl; intuition congruence).
Qed.

Lemma sanNamesOfValue_malformed (v : bytes) :
  ~ san_expected_shape v -> sanNamesOfValue v = [].
Proof.
  intros Hshape; unfold sanNamesOfValue.
  destruct (Asn1.UnmarshalRaw v) as [e|[seq [|b rest]]] eqn:H1; try reflexivity.
  destruct (Asn1.Class seq =? Asn1.ClassUniversal) eqn:Hc; [|reflexivity].
  destruct (Asn1.Tag seq =? Asn1.TagSequence) eqn:Ht; [|reflexivity]; simpl.
  destruct (Asn1.UnmarshalRaws (Asn1.Bytes seq)) as [e|[rawValues [|b rest]]] eqn:H2; try reflexivity.
  exfalso; apply Hshape.
  exists seq, rawValues; apply Z.eqb_eq in Hc; apply Z.eqb_eq in Ht; auto.
Qed.

Lemma csrDNSNames_malformed (exts : list Extension) :
  (forall ext, In ext exts -> oid_equal (ext_Id ext) oidSubjectAltName = true ->
               ~ san_expected_shape (ext_Value ext)) ->
  csrDNSNames exts = [].
Proof.
  induction exts as [|ext rest IH]; intros H; simpl; [reflexivity|].
  rewrite IH by (intros e He; apply H; right; exact He).
  destruct (oid_equal (ext_Id ext) [2; 5; 29; 17]) eqn:E; [|reflexivity].
  rewrite sanNamesOfValue_malformed; [reflexivity|].
  apply H; [left; reflexivity | exact E].
Qed.

(** C8: for a parsed CSR whose SAN extensions are absent or whose values
    do not have the shape the SAN walk expects, the decoder extracts no DNS
    names, and the CSR summary still completes ([decodeFile] returns nil). *)
Theorem csr_san_malformed_tolerated (nameString : Name -> string)
    (readFile : string -> string + bytes) (pemDecode : bytes -> option Block)
    (parseCertificate : bytes -> string + Certificate)
    (parseCertificateRequest : bytes -> string + CertificateRequest)
    (parsePKCS1PrivateKey : bytes -> string + RSAPrivateKey)
    (parsePKCS8PrivateKey : bytes -> string + PrivateKey)
    (filePath : string) (data : bytes) (block : Block) (csr : CertificateRequest) :
  readFile filePath = inr data ->
  pemDecode data = Some block ->
  blk_Type block = "CERTIFICATE REQUEST"%string ->
  parseCertificateRequest (blk_Bytes block) = inr csr ->
  (forall ext, In ext (csr_Extensions csr) -> oid_equal (ext_Id ext) oidSubjectAltName = true ->
               ~ san_expected_shape (ext_Value ext)) ->
  rs_DNSNames (printCSRInfo csr) = [] /\
  decodeFile nameString readFile pemDecode parseCertificate parseCertificateRequest
    parsePKCS1PrivateKey parsePKCS8PrivateKey filePath =
  inr (CSRInfo (mkCSRSummary (formatName (csr_req_Subject csr)) [] (csr_CheckSignatureOK csr))).
Proof.
  intros Hr Hp Ht Hparse Hsan.
  pose proof (csrDNSNames_malformed _ Hsan) as Hnil.
  split; [exact Hnil|].
  unfold decodeFile; rewrite Hr, Hp, Ht; simpl.
  rewrite Hparse; unfold printCSRInfo; rewrite Hnil; reflexivity.
Qed.

Lemma csr_san_malformed_tolerated_witness :
  rs_DNSNames (printCSRInfo csr_witness) = [] /\
  decodeFile (fun n => CommonName n) (fun _ => inr []) (fun _ => Some (mkBlock "CERTIFICATE REQUEST" []))
    (fun _ => inl "unused"%string) (fun _ => inr csr_witness)
    (fun _ => inl "unused"%string) (fun _ => inl "unused"%string) "a.csr"%string =
  inr (CSRInfo (mkCSRSummary (formatName (csr_req_Subject csr_witness)) [] true)).
Proof.
  apply (csr_san_malformed_tolerated (fun n => CommonName n) (fun _ => inr [])
           (fun _ => Some (mkBlock "CERTIFICATE REQUEST" [])) (fun _ => inl "unused"%string)
           (fun _ => inr csr_witness) (fun _ => inl "unused"%string) (fun _ => inl "unused"%string)
           "a.csr"%string [] (mkBlock "CERTIFICATE REQUEST" []) csr_witness);
    try reflexivity.
  intros ext [<-|[]] _ (seq & rawValues & H1 & H2 & H3 & H4).
  vm_compute in H1; injection H1 as <-; vm_compute in H4; discriminate H4.
Defined.

(** C2: for a non-empty SAN list, the CSR template carries exactly one
    extra extension; its OID is 2.5.29.17 and its value is the DER encoding
    of a SEQUENCE whose contents are, entry by entry and in order, the DER
    encodings of primitive values of class 2 (context-specific) and tag 2
    whose contents are the bytes of the entry.  The only assumption is that
    the value fits a Go slice (its length is below 2^63). *)
Theorem san_extension_der (subj : Name) (sans : list string) :
  sans <> [] ->
  Z.of_nat (List.length (ext_Value (sanExtension sans))) < 2 ^ 63 ->
  exists ext, csr_ExtraExtensions (csrTemplate subj sans) = [ext] /\
    ext_Id ext = [2; 5; 29; 17] /\
    exists encs,
      Forall2 (fun san enc => is_der_tlv 2 2 false (bytes_of_string san) enc) sans encs /\
      is_der_tlv 0 16 true (List.concat encs) (ext_Value ext).
Proof.
  intros Hne Hlen.
  exists (sanExtension sans); split.
  { destruct sans; [contradiction|reflexivity]. }
  split; [reflexivity|].
  set (body := List.concat (map Asn1.marshalRawValue (map sanRawValue sans))).
  assert (Hval : ext_Value (sanExtension sans) =
                 Asn1.appendTagAndLength [] (Asn1.mkTL 0 16 (Z.of_nat (List.length body)) true)
                 ++ body) by reflexivity.
  assert (Hbody : Z.of_nat (List.length body) < 2 ^ 63).
  { rewrite Hval, length_app in Hlen; lia. }
  exists (map Asn1.marshalRawValue (map sanRawValue sans)); split.
  - rewrite map_map; apply Forall2_map_r; intros san Hin.
    rewrite marshal_sanRawValue; apply appendTagAndLength_der; [lia|reflexivity|].
    assert (Hle : (List.length (Asn1.marshalRawValue (sanRawValue san)) <= List.length body)%nat).
    { apply length_In_concat; rewrite map_map;
      apply (in_map (fun x => Asn1.marshalRawValue (sanRawValue x))); exact Hin. }
    rewrite marshal_sanRawValue, length_app in Hle; lia.
  - rewrite Hval; apply appendTagAndLength_der; [lia|reflexivity|exact Hbody].
Qed.

Lemma san_extension_der_witness :
  exists ext, csr_ExtraExtensions (csrTemplate (mkName EmptyString [] [] [] [] [])
                                     ["example.com"; "www.example.com"]%string) = [ext] /\
    ext_Id ext = [2; 5; 29; 17] /\
    exists encs,
      Forall2 (fun san enc => is_der_tlv 2 2 false (bytes_of_string san) enc)
              ["example.com"; "www.example.com"]%string encs /\
      is_der_tlv 0 16 true (List.concat encs) (ext_Value ext).
Proof.
  apply san_extension_der; [discriminate|vm_compute; reflexivity].
Defined.

(** C1: for every non-empty SAN list (whose encoded value stays below the
    2^31 bytes the decoder accepts as a length), a CSR carrying the
    extension [main] builds is reported by [printCSRInfo] with no DNS names
    at all, so never with the SAN list itself: the value is unwrapped once
    as a SEQUENCE, and its contents, which begin with a context-specific
    [dNSName] identifier, are parsed again as a SEQUENCE and refused. *)
Theorem csr_san_names_lost (subj : Name) (sans : list string) (csr : CertificateRequest) :
  sans <> [] ->
  Z.of_nat (List.length (ext_Value (sanExtension sans))) < 2 ^ 31 ->
  csr_Extensions csr = csr_ExtraExtensions (csrTemplate subj sans) ->
  rs_DNSNames (printCSRInfo csr) = [] /\ rs_DNSNames (printCSRInfo csr) <> sans.
Proof.
  intros Hne Hlen Hext.
  assert (Hnil : rs_DNSNames (printCSRInfo csr) = []).
  { unfold printCSRInfo; cbn [rs_DNSNames]; rewrite Hext.
    replace (csr_ExtraExtensions (csrTemplate subj sans)) with [sanExtension sans]
      by (destruct sans; [contradiction|reflexivity]).
    cbn [csrDNSNames]; rewrite sanNamesOfValue_sanExtension by assumption; reflexivity. }
  split; [exact Hnil|].
  rewrite Hnil; intros Heq; apply Hne; symmetry; exact Heq.
Qed.

Lemma csr_san_names_lost_witness :
  rs_DNSNames (printCSRInfo (mkCSR (mkName "example.com"%string [] [] [] [] [])
                              [sanExtension ["example.com"; "www.example.com"]%string] true)) = [] /\
  rs_DNSNames (printCSRInfo (mkCSR (mkName "example.com"%string [] [] [] [] [])
                              [sanExtension ["example.com"; "www.example.com"]%string] true))
    <> ["example.com"; "www.example.com"]%string.
Proof.
  apply (csr_san_names_lost (mkName "example.com"%string [] [] [] [] [])
           ["example.com"; "www.example.com"]%string);
    [discriminate | vm_compute; reflexivity | reflexivity].
Defined.

(* ================================================================== *)
(** * Further properties of the code *)

Lemma dropSpace_suffix (l : list ascii) : exists p, l = p ++ dropSpace l.
Proof.
  induction l as [l IH] using (induction_ltof1 _ (@List.length _)).
  destruct l as [|a r]; [exists []; reflexivity|]; simpl.
  destruct (is_space a).
  { destruct (IH r ltac:(unfold ltof; simpl; lia)) as [p Hp]; exists (a :: p); simpl; f_equal; exact Hp. }
  destruct r as [|b r1]; [exists []; reflexivity|].
  destruct (is_ws2 a b).
  { destruct (IH r1 ltac:(unfold ltof; simpl; lia)) as [p Hp]; exists (a :: b :: p); simpl; do 2 f_equal; exact Hp. }
  destruct r1 as [|c r2]; [exists []; reflexivity|].
  destruct (is_ws3 a b c); [|exists []; reflexivity].
  destruct (IH r2 ltac:(unfold ltof; simpl; lia)) as [p Hp]; exists (a :: b :: c :: p); simpl; do 3 f_equal; exact Hp.
Qed.

Lemma dropSpaceRev_suffix (l : list ascii) : exists p, l = p ++ dropSpaceRev l.
Proof.
  induction l as [l IH] using (induction_ltof1 _ (@List.length _)).
  destruct l as [|a r]; [exists []; reflexivity|]; simpl.
  destruct (is_space a).
  { destruct (IH r ltac:(unfold ltof; simpl; lia)) as [p Hp]; exists (a :: p); simpl; f_equal; exact Hp. }
  destruct r as [|b r1]; [exists []; reflexivity|].
  destruct (is_ws2 b a).
  { destruct (IH r1 ltac:(unfold ltof; simpl; lia)) as [p Hp]; exists (a :: b :: p); simpl; do 2 f_equal; exact Hp. }
  destruct r1 as [|c r2]; [exists []; reflexivity|].
  destruct (is_ws3 c b a); [|exists []; reflexivity].
  destruct (IH r2 ltac:(unfold ltof; simpl; lia)) as [p Hp]; exists (a :: b :: c :: p); simpl; do 3 f_equal; exact Hp.
Qed.

Lemma dropSpace_idem (l : list ascii) : dropSpace (dropSpace l) = dropSpace l.
Proof.
  induction l as [l IH] using (induction_ltof1 _ (@List.length _)).
  destruct l as [|a r]; [reflexivity|]; simpl.
  destruct (is_space a) eqn:E1; [apply IH; unfold ltof; simpl; lia|].
  destruct r as [|b r1]; [simpl; rewrite E1; reflexivity|].
  destruct (is_ws2 a b) eqn:E2; [apply IH; unfold ltof; simpl; lia|].
  destruct r1 as [|c r2]; [simpl; rewrite E1, E2; reflexivity|].
  destruct (is_ws3 a b c) eqn:E3; [apply IH; unfold ltof; simpl; lia|].
  simpl; rewrite E1, E2, E3; reflexivity.
Qed.

Lemma dropSpaceRev_idem (l : list ascii) : dropSpaceRev (dropSpaceRev l) = dropSpaceRev l.
Proof.
  induction l as [l IH] using (induction_ltof1 _ (@List.length _)).
  destruct l as [|a r]; [reflexivity|]; simpl.
  destruct (is_space a) eqn:E1; [apply IH; unfold ltof; simpl; lia|].
  destruct r as [|b r1]; [simpl; rewrite E1; reflexivity|].
  destruct (is_ws2 b a) eqn:E2; [apply IH; unfold ltof; simpl; lia|].
  destruct r1 as [|c r2]; [simpl; rewrite E1, E2; reflexivity|].
  destruct (is_ws3 c b a) eqn:E3; [apply IH; unfold ltof; simpl; lia|].
  simpl; rewrite E1, E2, E3; reflexivity.
Qed.

(** a list [dropSpace] leaves alone has no prefix it would shorten *)
Lemma dropSpace_prefix_id (t u : list ascii) :
  dropSpace (t ++ u) = t ++ u -> dropSpace t = t.
Proof.
  intros H.
  assert (Hshort : forall l x, dropSpace l = x -> (List.length l < List.length x)%nat -> False).
  { intros l x Hx Hlt; destruct (dropSpace_suffix l) as [p Hp].
    rewrite Hx in Hp; rewrite Hp, length_app in Hlt; lia. }
  destruct t as [|a t1]; [reflexivity|]; simpl in H |- *.
  destruct (is_space a) eqn:E1; [exfalso; apply (Hshort _ _ H); simpl; lia|].
  destruct t1 as [|b t2]; [reflexivity|]; simpl in H.
  destruct (is_ws2 a b) eqn:E2; [exfalso; apply (Hshort _ _ H); simpl; lia|].
  destruct t2 as [|c t3]; [reflexivity|]; simpl in H.
  destruct (is_ws3 a b c) eqn:E3; [exfalso; apply (Hshort _ _ H); simpl; lia|].
  reflexivity.
Qed.

(** [strings.TrimSpace] is idempotent *)
Lemma trimSpace_idem (s : string) : trimSpace (trimSpace s) = trimSpace s.
Proof.
  unfold trimSpace at 1 3; unfold trimSpace; rewrite list_ascii_of_string_of_list_ascii.
  set (m := dropSpace (list_ascii_of_string s)).
  set (t := rev (dropSpaceRev (rev m))).
  assert (Ht : dropSpace t = t).
  { destruct (dropSpaceRev_suffix (rev m)) as [p Hp].
    apply (dropSpace_prefix_id t (rev p)).
    unfold t; rewrite <- rev_app_distr, <- Hp, rev_involutive.
    apply dropSpace_idem. }
  rewrite Ht; unfold t at 1; rewrite rev_involutive, dropSpaceRev_idem; reflexivity.
Qed.

Lemma readSANs_trimmed (input : list string) :
  Forall (fun san => san <> EmptyString /\ trimSpace san = san) (fst (readSANs input)).
Proof.
  induction input as [|l input IH]; simpl; [constructor|].
  destruct (String.eqb (trimSpace l) EmptyString) eqn:E; simpl; [constructor|].
  destruct (readSANs input) as [sans rest]; simpl in *.
  constructor; [split; [apply String.eqb_neq; exact E|apply trimSpace_idem]|exact IH].
Qed.

Lemma is_digit_not_space (a : ascii) : is_digit a = true -> is_space a = false.
Proof.
  unfold is_digit, is_space; cbv beta zeta; intros H.
  apply andb_prop in H as [H1 H2]; apply Nat.leb_le in H1, H2.
  destruct (Nat.leb_spec 9 (nat_of_ascii a)), (Nat.leb_spec (nat_of_ascii a) 13),
    (Nat.eqb_spec (nat_of_ascii a) 32); simpl; try lia; reflexivity.
Qed.

Lemma skipSpace_digit (a : ascii) (l : list ascii) :
  is_digit a = true -> skipSpace (a :: l) = Some (a :: l).
Proof.
  intros H; simpl.
  destruct (Ascii.eqb_spec a "010"%char) as [->|_]; [discriminate H|].
  rewrite (is_digit_not_space a H); reflexivity.
Qed.

Lemma scanDigits_app (ds suffix : list ascii) :
  Forall (fun a => is_digit a = true) ds ->
  (match suffix with a :: _ => is_digit a = false | [] => True end) ->
  scanDigits (ds ++ suffix) = (ds, suffix).
Proof.
  intros HF Hs; induction HF as [|a ds Ha HF IH]; simpl.
  - destruct suffix as [|b suffix]; simpl; [reflexivity|rewrite Hs; reflexivity].
  - rewrite Ha, IH; reflexivity.
Qed.

Lemma digits_value_nonneg (ds : list ascii) :
  Forall (fun a => is_digit a = true) ds -> 0 <= digits_value ds.
Proof.
  intros HF; unfold digits_value.
  assert (Hg : forall acc, 0 <= acc ->
            0 <= fold_left (fun acc a => acc * 10 + (Z.of_nat (nat_of_ascii a) - 48)) ds acc).
  { induction HF as [|a ds Ha HF IH]; intros acc H; simpl; [exact H|].
    apply IH; unfold is_digit in Ha; cbv zeta in Ha.
    apply andb_prop in Ha as [Ha _]; apply Nat.leb_le in Ha; lia. }
  apply Hg; lia.
Qed.

(** [fmt.Sscanf(s, "%d", &v)] reads the leading decimal number of [s] *)
Lemma sscanf_d_leading (ds suffix : list ascii) :
  ds <> [] -> Forall (fun a => is_digit a = true) ds ->
  (match suffix with a :: _ => is_digit a = false | [] => True end) ->
  digits_value ds <= 2 ^ 63 - 1 ->
  sscanf_d (string_of_list_ascii (ds ++ suffix)) = Some (digits_value ds).
Proof.
  intros Hne HF Hs Hv.
  pose proof (digits_value_nonneg ds HF) as H0.
  destruct ds as [|d ds]; [contradiction|].
  inversion HF as [|? ? Hd _]; subst.
  unfold sscanf_d; rewrite list_ascii_of_string_of_list_ascii.
  rewrite <- app_comm_cons, skipSpace_digit by exact Hd.
  destruct (Ascii.eqb_spec d "-"%char) as [->|_]; [discriminate Hd|].
  destruct (Ascii.eqb_spec d "+"%char) as [->|_]; [discriminate Hd|].
  rewrite app_comm_cons, scanDigits_app by assumption.
  destruct (Z.ltb_spec (digits_value (d :: ds)) (- 2 ^ 63)); [lia|].
  destruct (Z.ltb_spec (2 ^ 63 - 1) (digits_value (d :: ds))); [lia|reflexivity].
Qed.

(** a leading number beyond int64 makes [strconv.ParseInt] fail *)
Lemma sscanf_d_leading_big (ds suffix : list ascii) :
  ds <> [] -> Forall (fun a => is_digit a = true) ds ->
  (match suffix with a :: _ => is_digit a = false | [] => True end) ->
  2 ^ 63 - 1 < digits_value ds ->
  sscanf_d (string_of_list_ascii (ds ++ suffix)) = None.
Proof.
  intros Hne HF Hs Hv.
  destruct ds as [|d ds]; [contradiction|].
  inversion HF as [|? ? Hd _]; subst.
  unfold sscanf_d; rewrite list_ascii_of_string_of_list_ascii.
  rewrite <- app_comm_cons, skipSpace_digit by exact Hd.
  destruct (Ascii.eqb_spec d "-"%char) as [->|_]; [discriminate Hd|].
  destruct (Ascii.eqb_spec d "+"%char) as [->|_]; [discriminate Hd|].
  rewrite app_comm_cons, scanDigits_app by assumption.
  destruct (Z.ltb_spec (2 ^ 63 - 1) (digits_value (d :: ds))); [|lia].
  rewrite orb_true_r; reflexivity.
Qed.

Lemma NoDup_snoc {A : Type} (l : list A) (x : A) : NoDup l -> ~ In x l -> NoDup (l ++ [x]).
Proof.
  intros Hl Hx; apply NoDup_app; [exact Hl|constructor; [tauto|constructor]|].
  intros a Ha [<-|[]]; contradiction.
Qed.

(** the prompt path of [main] up to the SAN question, for the answers
    "self-signed: yes" and a blank validity period *)
Lemma main_generate_prompt_blank (d : Z) (pre : list string) (answer blank : string)
    (rest : list string) (now serialNumber : Z) :
  List.length pre = 9%nat ->
  (trimSpace (toLower answer) = "y"%string \/ trimSpace (toLower answer) = "yes"%string) ->
  trimSpace blank = EmptyString ->
  let g := main_generate (mkFlags false d) (pre ++ answer :: blank :: rest) now serialNumber in
  gen_validDays g = d /\
  gen_cert g = Some (let t := certTemplate (gen_subject g) (gen_sans g) (CommonName (gen_subject g)) d now serialNumber in
                     createCertificate t t).
Proof.
  intros Hlen Ha Hb.
  do 9 (destruct pre as [|? pre]; [discriminate Hlen|]).
  destruct pre; [|discriminate Hlen].
  assert (Hy : (String.eqb (trimSpace (toLower answer)) "y" || String.eqb (trimSpace (toLower answer)) "yes")%string = true)
    by (destruct Ha as [-> | ->]; reflexivity).
  unfold main_generate, selectValidity; simpl.
  rewrite Hy, Hb; simpl; destruct_lets; simpl; auto.
Qed.

(** X1: every SAN [main] collects is non-empty and already trimmed: it has
    no leading or trailing white space in the sense of [strings.TrimSpace],
    ASCII or Unicode. *)
Theorem main_sans_trimmed (fl : Flags) (input : list string) (now serialNumber : Z) :
  Forall (fun san => san <> EmptyString /\ trimSpace san = san)
    (gen_sans (main_generate fl input now serialNumber)).
Proof.
  unfold main_generate; destruct_lets; simpl.
  destruct (_ || _)%bool; [apply readSANs_trimmed|constructor].
Qed.

(** X2: the SAN loop takes the trimmed lines up to the first blank one
    (which it consumes) and leaves the rest of the input unread; at the
    end of input it stops as on a blank line. *)
Theorem readSANs_stop (ls rest : list string) (blank : string) :
  Forall (fun l => trimSpace l <> EmptyString) ls ->
  trimSpace blank = EmptyString ->
  readSANs (ls ++ blank :: rest) = (map trimSpace ls, rest) /\
  readSANs ls = (map trimSpace ls, []).
Proof.
  intros HF Hb; induction HF as [|l ls Hl HF IH]; simpl.
  - rewrite Hb; split; reflexivity.
  - destruct IH as [H1 H2].
    apply String.eqb_neq in Hl; rewrite Hl, H1, H2; split; reflexivity.
Qed.

Lemma readSANs_stop_witness :
  (Forall (fun l => trimSpace l <> EmptyString) [" a.example "; "b.example"]%string /\
   trimSpace "  "%string = EmptyString) /\
  readSANs (app [" a.example "; "b.example"]%string ("  "%string :: ["c.example"%string])) =
    (map trimSpace [" a.example "; "b.example"]%string, ["c.example"%string]) /\
  readSANs [" a.example "; "b.example"]%string = (map trimSpace [" a.example "; "b.example"]%string, []).
Proof.
  assert (HF : Forall (fun l => trimSpace l <> EmptyString) [" a.example "; "b.example"]%string)
    by (repeat constructor; vm_compute; discriminate).
  assert (Hb : trimSpace "  "%string = EmptyString) by reflexivity.
  split; [split; assumption|].
  exact (readSANs_stop [" a.example "; "b.example"]%string ["c.example"%string] "  "%string HF Hb).
Defined.

(** X3: the key-size answer is read as its leading decimal number and
    anything after it is ignored: an answer made of digits with value 2048,
    3072 or 4096 (leading zeros allowed), followed by any text that does not
    start with a digit, selects that key size (e.g. "4096 bits"). *)
Theorem selectKeySize_leading_number (ds suffix : list ascii) :
  ds <> [] -> Forall (fun a => is_digit a = true) ds ->
  (match suffix with a :: _ => is_digit a = false | [] => True end) ->
  In (digits_value ds) [2048; 3072; 4096] ->
  selectKeySize (string_of_list_ascii (ds ++ suffix)) = digits_value ds.
Proof.
  intros Hne HF Hs Hin.
  assert (Hv : digits_value ds <= 2 ^ 63 - 1) by (destruct Hin as [<-|[<-|[<-|[]]]]; lia).
  unfold selectKeySize.
  destruct ds as [|d ds]; [contradiction|].
  replace (String.eqb (string_of_list_ascii ((d :: ds) ++ suffix)) EmptyString) with false by reflexivity.
  rewrite sscanf_d_leading by assumption.
  destruct Hin as [<-|[<-|[<-|[]]]]; reflexivity.
Qed.

Lemma selectKeySize_leading_number_witness :
  selectKeySize (string_of_list_ascii (list_ascii_of_string "04096" ++ list_ascii_of_string " bits"))
  = digits_value (list_ascii_of_string "04096").
Proof.
  apply selectKeySize_leading_number;
    [discriminate | repeat constructor | reflexivity | vm_compute; tauto].
Defined.

(** X4: without -s, answering yes to the self-signed question and leaving
    the validity answer blank keeps the -days value (365 by default)
    without the positivity check: a -days value d with -106751 <= d <= 0
    gives a certificate whose NotAfter is at or before its NotBefore. *)
Theorem prompt_blank_validity_keeps_days (d : Z) (pre : list string) (answer blank : string)
    (rest : list string) (now serialNumber : Z) :
  List.length pre = 9%nat ->
  (trimSpace (toLower answer) = "y"%string \/ trimSpace (toLower answer) = "yes"%string) ->
  trimSpace blank = EmptyString ->
  let g := main_generate (mkFlags false d) (pre ++ answer :: blank :: rest) now serialNumber in
  gen_validDays g = d /\
  (-106751 <= d <= 0 -> exists c, gen_cert g = Some c /\ cert_NotAfter c <= cert_NotBefore c).
Proof.
  intros Hlen Ha Hb.
  destruct (main_generate_prompt_blank d pre answer blank rest now serialNumber Hlen Ha Hb) as [Hv Hc];
    cbv zeta in *.
  split; [exact Hv|intros Hd].
  eexists; split; [exact Hc|].
  simpl; rewrite validityDuration_small by lia.
  apply toSeconds_mono; unfold timeAdd, Hour; nia.
Qed.

Lemma prompt_blank_validity_keeps_days_witness :
  let g := main_generate (mkFlags false 0)
             (app ["example.com"; "Acme"; "IT"; "US"; "CA"; "SF"; "a@example.com"; "2048"; "cert"]%string
                  ("Y"%string :: " "%string :: ["n"%string])) 1700000000000000000 1 in
  gen_validDays g = 0 /\
  (-106751 <= 0 <= 0 -> exists c, gen_cert g = Some c /\ cert_NotAfter c <= cert_NotBefore c).
Proof.
  apply prompt_blank_validity_keeps_days; [reflexivity | left; reflexivity | reflexivity].
Defined.

(** X5: if the SAN list has no duplicates, neither has the DNS-name list of
    the certificate template: the CommonName is appended at most once and
    only when it is not already present. *)
Theorem certTemplate_DNSNames_NoDup (subj : Name) (sans : list string) (commonName : string)
    (validDays now serialNumber : Z) :
  NoDup sans -> NoDup (ct_DNSNames (certTemplate subj sans commonName validDays now serialNumber)).
Proof.
  intros Hs; unfold certTemplate; cbv zeta; cbn [ct_DNSNames].
  assert (HD : NoDup (if (0 <? List.length sans)%nat then sans else []))
    by (destruct (0 <? List.length sans)%nat; [exact Hs|constructor]).
  destruct (contains (if (0 <? List.length sans)%nat then sans else []) commonName) eqn:E;
    simpl; [exact HD|].
  destruct (contains_dot commonName); [|exact HD].
  apply NoDup_snoc; [exact HD|].
  intros Hin; apply contains_In in Hin; congruence.
Qed.

Lemma certTemplate_DNSNames_NoDup_witness :
  NoDup (ct_DNSNames (certTemplate (mkName "example.com" [] [] [] [] [])
           ["www.example.com"; "api.example.com"] "example.com" 365 0 1))%string.
Proof.
  apply certTemplate_DNSNames_NoDup.
  repeat constructor; simpl; intuition discriminate.
Defined.

(** X6: with the validity prompt (no -s, self-signed answered yes), a
    typed answer whose trimmed text starts with a decimal number n (any
    text may follow, e.g. "30 days") gives n when 1 <= n <= 2^63-1 and 365
    when n = 0; when n exceeds int64, [Sscanf] fails and leaves the -days
    value, which is kept if positive and replaced by 365 otherwise.  A
    non-blank answer that [Sscanf] cannot read as an integer likewise keeps
    the -days value if positive and uses 365 otherwise. *)
Theorem prompt_typed_validity (days : Z) (answer : string) (rest : list string) :
  (trimSpace (toLower answer) = "y"%string \/ trimSpace (toLower answer) = "yes"%string) ->
  (forall (typed : string) (ds suffix : list ascii),
     ds <> [] -> Forall (fun a => is_digit a = true) ds ->
     (match suffix with a :: _ => is_digit a = false | [] => True end) ->
     trimSpace typed = string_of_list_ascii (ds ++ suffix) ->
     selectValidity (mkFlags false days) (answer :: typed :: rest)
     = (true, if digits_value ds <=? 2 ^ 63 - 1
              then (if digits_value ds =? 0 then 365 else digits_value ds)
              else (if days <=? 0 then 365 else days), rest)) /\
  (forall typed : string,
     trimSpace typed <> EmptyString -> sscanf_d (trimSpace typed) = None ->
     selectValidity (mkFlags false days) (answer :: typed :: rest)
     = (true, if days <=? 0 then 365 else days, rest)).
Proof.
  intros Ha.
  assert (Hy : (String.eqb (trimSpace (toLower answer)) "y" || String.eqb (trimSpace (toLower answer)) "yes")%string = true)
    by (destruct Ha as [-> | ->]; reflexivity).
  assert (Hn : forall typed, trimSpace typed <> EmptyString ->
            selectValidity (mkFlags false days) (answer :: typed :: rest)
            = (true, let v := match sscanf_d (trimSpace typed) with Some v => v | None => days end in
                     if v <=? 0 then 365 else v, rest)).
  { intros typed Ht; unfold selectValidity; simpl; rewrite Hy; simpl.
    apply String.eqb_neq in Ht; rewrite Ht; simpl.
    destruct (match sscanf_d (trimSpace typed) with Some v => v | None => days end <=? 0); reflexivity. }
  split.
  - intros typed ds suffix Hne HF Hs Ht.
    pose proof (digits_value_nonneg ds HF) as H0.
    rewrite Hn by (rewrite Ht; destruct ds; [contradiction | discriminate]); cbv zeta.
    rewrite Ht.
    destruct (Z.leb_spec (digits_value ds) (2 ^ 63 - 1)) as [Hle|Hgt].
    + rewrite sscanf_d_leading by assumption.
      destruct (Z.eqb_spec (digits_value ds) 0) as [->|Hnz]; [reflexivity|].
      destruct (Z.leb_spec (digits_value ds) 0); [lia|reflexivity].
    + rewrite sscanf_d_leading_big by assumption; reflexivity.
  - intros typed Ht Hs; rewrite Hn by exact Ht; rewrite Hs; reflexivity.
Qed.

Lemma prompt_typed_validity_witness :
  selectValidity (mkFlags false 730) ["yes"; "  30 days "]%string = (true, 30, []) /\
  selectValidity (mkFlags false 730) ["yes"; "0"]%string = (true, 365, []) /\
  selectValidity (mkFlags false 730) ["yes"; "99999999999999999999"]%string = (true, 730, []) /\
  selectValidity (mkFlags false 730) ["yes"; "abc"]%string = (true, 730, []).
Proof.
  destruct (prompt_typed_validity 730 "yes" [] (or_intror eq_refl)) as [Hd Hx].
  split; [|split; [|split]].
  - refine (eq_trans (Hd "  30 days "%string (list_ascii_of_string "30"%string) (list_ascii_of_string " days"%string)
                        ltac:(discriminate) ltac:(cbn; repeat constructor) eq_refl
                        ltac:(vm_compute; reflexivity)) _).
    vm_compute; reflexivity.
  - refine (eq_trans (Hd "0"%string (list_ascii_of_string "0"%string) [] ltac:(discriminate)
                        ltac:(cbn; repeat constructor) I ltac:(vm_compute; reflexivity)) _).
    vm_compute; reflexivity.
  - refine (eq_trans (Hd "99999999999999999999"%string (list_ascii_of_string "99999999999999999999"%string) []
                        ltac:(discriminate) ltac:(cbn; repeat constructor) I
                        ltac:(vm_compute; reflexivity)) _).
    vm_compute; reflexivity.
  - apply Hx; vm_compute; [discriminate | reflexivity].
Defined.

Lemma string_of_bytes_of_string (s : string) : string_of_bytes (bytes_of_string s) = s.
Proof.
  unfold string_of_bytes, bytes_of_string; rewrite map_map.
  erewrite map_ext; [rewrite map_id; apply string_of_list_ascii_of_string|].
  intros a; cbv beta; rewrite Nat2Z.id; apply ascii_nat_embedding.
Qed.

(** the decoder reads back, at any offset, a header with a low tag number
    and DER length octets *)
Lemma parse_header_at (b n : Z) (L rest bs : bytes) (off : nat) :
  skipn off bs = [b] ++ L ++ rest -> Z.land b 31 <> 31 ->
  der_length_octets n L -> n < 2 ^ 31 ->
  Asn1.parseTagAndLength bs off =
  inr (Asn1.mkTL (Z.shiftr b 6) (Z.land b 31) n (Z.land b 32 =? 32), (off + S (List.length L))%nat).
Proof.
  intros Hs Htag [[Hn ->]|[Hn (ds & -> & Hlen & HF & Hhd & Hv)]] Hb.
  - destruct (skipn_cons_inv bs off b (n :: rest) Hs) as [H0 Hs1].
    destruct (skipn_cons_inv bs (S off) n rest Hs1) as [H1 _].
    destruct (land_low7 n Hn) as [L0 L1].
    unfold Asn1.parseTagAndLength; rewrite H0; cbv zeta.
    apply Z.eqb_neq in Htag; rewrite Htag; cbv iota beta.
    rewrite H1, L0, L1; cbn [Z.eqb]; cbv iota beta.
    replace (off + S (List.length [n]))%nat with (S (S off)) by (simpl; lia); reflexivity.
  - destruct ds as [|d0 ds0]; [unfold be_value in Hv; simpl in Hv; lia|].
    set (ds := d0 :: ds0) in *.
    destruct (skipn_cons_inv bs off b _ Hs) as [H0 Hs1].
    destruct (skipn_cons_inv bs (S off) _ _ Hs1) as [H1 Hs2].
    destruct (land_high7 (Z.of_nat (List.length ds)) ltac:(lia)) as [L0 L1].
    unfold Asn1.parseTagAndLength; rewrite H0; cbv zeta.
    apply Z.eqb_neq in Htag; rewrite Htag; cbv iota beta.
    rewrite H1, L0, L1; cbn [Z.eqb].
    destruct (Z.eqb_spec (Z.of_nat (List.length ds)) 0) as [Hz|_]; [simpl in Hz; lia|].
    rewrite Nat2Z.id.
    rewrite (parseLength_loop_be ds rest bs (S (S off)) 0 Hs2 ltac:(lia) HF)
      by (fold (be_value ds); lia || (right; exact Hhd)).
    fold (be_value ds); rewrite Hv.
    destruct (Z.ltb_spec n 128) as [|_]; [lia|].
    replace (off + S (List.length _))%nat with (S (S off) + List.length ds)%nat by (simpl; lia);
      reflexivity.
Qed.

Lemma slice_mid (p m r : bytes) :
  Asn1.slice (p ++ m ++ r) (List.length p) (List.length p + List.length m) = m.
Proof.
  unfold Asn1.slice; rewrite skipn_app, skipn_all, Nat.sub_diag; simpl.
  replace (List.length p + List.length m - List.length p)%nat with (List.length m) by lia.
  rewrite firstn_app, firstn_all, Nat.sub_diag; simpl; apply app_nil_r.
Qed.

Lemma invalidLength_fits (off : nat) (len : Z) (n : nat) :
  0 <= len -> (off + Z.to_nat len <= n)%nat -> Asn1.invalidLength off len n = false.
Proof.
  intros H0 H1; unfold Asn1.invalidLength; apply orb_false_intro; apply Z.ltb_ge; lia.
Qed.

(** the encoding of one SAN is a context-specific primitive tag-2 value *)
Lemma marshal_sanRawValue_der (san : string) :
  Z.of_nat (List.length (bytes_of_string san)) < 2 ^ 31 ->
  exists L, der_length_octets (Z.of_nat (List.length (bytes_of_string san))) L /\
    Asn1.marshalRawValue (sanRawValue san) = [130] ++ L ++ bytes_of_string san.
Proof.
  intros Hb; rewrite marshal_sanRawValue.
  destruct (appendTagAndLength_der 2 2 false (bytes_of_string san) ltac:(lia) eq_refl ltac:(lia))
    as (L & HL & Heq).
  exists L; split; [exact HL|exact Heq].
Qed.

Lemma skipn_header (pre L c R : bytes) (b : Z) :
  skipn (List.length pre) (pre ++ ([b] ++ L ++ c) ++ R) = [b] ++ L ++ c ++ R.
Proof. rewrite skipn_app, skipn_all, Nat.sub_diag; simpl; rewrite <- app_assoc; reflexivity. Qed.

Lemma seqOf_count_sans (sans : list string) (pre : bytes) (fuel n : nat) :
  Forall (fun s => Z.of_nat (List.length (bytes_of_string s)) < 2 ^ 31) sans ->
  (List.length sans <= fuel)%nat ->
  Asn1.seqOf_count fuel (pre ++ List.concat (map Asn1.marshalRawValue (map sanRawValue sans)))
    (List.length pre) n = inr (n + List.length sans)%nat.
Proof.
  revert pre fuel n; induction sans as [|s sans IH]; intros pre fuel n HF Hf.
  - destruct fuel; simpl; rewrite ?app_nil_r, ?Nat.leb_refl, Nat.add_0_r; reflexivity.
  - inversion HF as [|? ? Hs HF']; subst.
    destruct fuel as [|f]; [simpl in Hf; lia|].
    destruct (marshal_sanRawValue_der s Hs) as (L & HL & He).
    cbn [map List.concat]; rewrite He.
    set (c := bytes_of_string s) in *.
    set (R := List.concat (map Asn1.marshalRawValue (map sanRawValue sans))).
    cbn [Asn1.seqOf_count].
    replace (Nat.leb (List.length (pre ++ ([130] ++ L ++ c) ++ R)) (List.length pre)) with false
      by (symmetry; apply Nat.leb_gt; rewrite !length_app; simpl; lia).
    rewrite (parse_header_at 130 (Z.of_nat (List.length c)) L (c ++ R) _ (List.length pre)
               (skipn_header pre L c R 130) ltac:(cbv; discriminate) HL Hs).
    cbn [Asn1.tl_length].
    rewrite invalidLength_fits by (try lia; rewrite Nat2Z.id, !length_app; simpl; lia).
    rewrite Nat2Z.id.
    replace (pre ++ ([130] ++ L ++ c) ++ R) with ((pre ++ [130] ++ L ++ c) ++ R)
      by (rewrite <- app_assoc; reflexivity).
    replace (List.length pre + S (List.length L) + List.length c)%nat
      with (List.length (pre ++ [130] ++ L ++ c)) by (rewrite !length_app; simpl; lia).
    unfold R; rewrite (IH (pre ++ [130] ++ L ++ c) f (S n) HF' ltac:(simpl in Hf; lia)).
    f_equal; simpl; lia.
Qed.

Lemma seqOf_elems_sans (sans : list string) (pre : bytes) :
  Forall (fun s => Z.of_nat (List.length (bytes_of_string s)) < 2 ^ 31) sans ->
  Asn1.seqOf_elems (List.length sans)
    (pre ++ List.concat (map Asn1.marshalRawValue (map sanRawValue sans))) (List.length pre)
  = inr (map sanParsed sans).
Proof.
  revert pre; induction sans as [|s sans IH]; intros pre HF; [reflexivity|].
  inversion HF as [|? ? Hs HF']; subst.
  destruct (marshal_sanRawValue_der s Hs) as (L & HL & He).
  cbn [map List.concat List.length Asn1.seqOf_elems]; rewrite He.
  set (c := bytes_of_string s) in *.
  set (R := List.concat (map Asn1.marshalRawValue (map sanRawValue sans))).
  unfold Asn1.parseRawValue.
  replace (Nat.eqb (List.length pre) (List.length (pre ++ ([130] ++ L ++ c) ++ R))) with false
    by (symmetry; apply Nat.eqb_neq; rewrite !length_app; simpl; lia).
  rewrite (parse_header_at 130 (Z.of_nat (List.length c)) L (c ++ R) _ (List.length pre)
             (skipn_header pre L c R 130) ltac:(cbv; discriminate) HL Hs).
  cbn [Asn1.tl_length Asn1.tl_class Asn1.tl_tag Asn1.tl_isCompound].
  rewrite invalidLength_fits by (try lia; rewrite Nat2Z.id, !length_app; simpl; lia).
  rewrite Nat2Z.id.
  assert (E1 : Asn1.slice (pre ++ ([130] ++ L ++ c) ++ R) (List.length pre + S (List.length L))
                 (List.length pre + S (List.length L) + List.length c) = c).
  { replace (pre ++ ([130] ++ L ++ c) ++ R) with ((pre ++ [130] ++ L) ++ c ++ R)
      by (rewrite <- !app_assoc; reflexivity).
    replace (List.length pre + S (List.length L))%nat with (List.length (pre ++ [130] ++ L))
      by (rewrite !length_app; simpl; lia).
    apply slice_mid. }
  assert (E2 : Asn1.slice (pre ++ ([130] ++ L ++ c) ++ R) (List.length pre)
                 (List.length pre + S (List.length L) + List.length c) = [130] ++ L ++ c).
  { replace (List.length pre + S (List.length L) + List.length c)%nat
      with (Nat.add (List.length pre) (List.length ([130] ++ L ++ c))) by (rewrite !length_app; simpl; lia).
    apply slice_mid. }
  rewrite E1, E2.
  replace (pre ++ ([130] ++ L ++ c) ++ R) with ((pre ++ [130] ++ L ++ c) ++ R)
    by (rewrite <- app_assoc; reflexivity).
  replace (List.length pre + S (List.length L) + List.length c)%nat
    with (List.length (pre ++ [130] ++ L ++ c)) by (rewrite !length_app; simpl; lia).
  unfold R; rewrite (IH (pre ++ [130] ++ L ++ c) HF').
  change (sanParsed s) with (Asn1.mkRaw 2 2 false c (Asn1.marshalRawValue (sanRawValue s))).
  rewrite He; reflexivity.
Qed.

Lemma concat_sans_length (sans : list string) :
  (List.length sans <= List.length (List.concat (map Asn1.marshalRawValue (map sanRawValue sans))))%nat.
Proof.
  induction sans as [|s sans IH]; simpl; [lia|].
  destruct (marshal_sanRawValue_head s) as [t Ht]; rewrite length_app, Ht; simpl; lia.
Qed.

Lemma parseSequenceOfRaw_sans (sans : list string) :
  Forall (fun s => Z.of_nat (List.length (bytes_of_string s)) < 2 ^ 31) sans ->
  Asn1.parseSequenceOfRaw (List.concat (map Asn1.marshalRawValue (map sanRawValue sans)))
  = inr (map sanParsed sans).
Proof.
  intros HF; unfold Asn1.parseSequenceOfRaw.
  pose proof (seqOf_count_sans sans [] _ 0 HF (concat_sans_length sans)) as Hc; simpl in Hc.
  rewrite Hc; exact (seqOf_elems_sans sans [] HF).
Qed.

Lemma dnsNamesOfRaw_sanParsed (sans : list string) : dnsNamesOfRaw (map sanParsed sans) = sans.
Proof.
  induction sans as [|s sans IH]; [reflexivity|].
  unfold dnsNamesOfRaw in *; simpl; rewrite IH, string_of_bytes_of_string; reflexivity.
Qed.

Lemma sanExtension_value (sans : list string) :
  let body := List.concat (map Asn1.marshalRawValue (map sanRawValue sans)) in
  let N := Z.of_nat (List.length body) in
  ext_Value (sanExtension sans) =
  [48] ++ (if N >=? 128
           then Z.lor 128 (Asn1.lengthLength N) :: Asn1.appendLength_loop (Z.to_nat (Asn1.lengthLength N)) N
           else [N]) ++ body.
Proof.
  intros body N.
  change (ext_Value (sanExtension sans)) with (Asn1.appendTagAndLength [] (Asn1.mkTL 0 16 N true) ++ body).
  rewrite seq_header_shape; reflexivity.
Qed.

(** X7: unmarshalling the SAN extension value [main] builds once, directly
    into a [[]RawValue], succeeds with nothing left over and gives, per SAN
    and in order, a primitive value of class 2 and tag 2 whose bytes are the
    SAN's bytes; the class/tag filter and [string(rv.Bytes)] of
    [printCSRInfo] then give back the SAN list itself. *)
Theorem san_value_unmarshal_once (sans : list string) :
  Z.of_nat (List.length (ext_Value (sanExtension sans))) < 2 ^ 31 ->
  Asn1.UnmarshalRaws (ext_Value (sanExtension sans)) = inr (map sanParsed sans, []) /\
  dnsNamesOfRaw (map sanParsed sans) = sans.
Proof.
  intros Hlen; split; [|apply dnsNamesOfRaw_sanParsed].
  pose proof (sanExtension_value sans) as Hval; cbv zeta in Hval.
  set (body := List.concat (map Asn1.marshalRawValue (map sanRawValue sans))) in *.
  set (N := Z.of_nat (List.length body)) in *.
  set (L := if N >=? 128
            then Z.lor 128 (Asn1.lengthLength N) :: Asn1.appendLength_loop (Z.to_nat (Asn1.lengthLength N)) N
            else [N]) in *.
  rewrite Hval in *; rewrite !length_app in Hlen.
  assert (HF : Forall (fun s => Z.of_nat (List.length (bytes_of_string s)) < 2 ^ 31) sans).
  { apply Forall_forall; intros s Hin.
    assert (Hle : (List.length (Asn1.marshalRawValue (sanRawValue s)) <= List.length body)%nat).
    { apply length_In_concat; rewrite map_map.
      apply (in_map (fun x => Asn1.marshalRawValue (sanRawValue x))); exact Hin. }
    rewrite marshal_sanRawValue, length_app in Hle; lia. }
  assert (Hder : der_length_octets N L) by (apply appendLength_der; unfold N; lia).
  unfold Asn1.UnmarshalRaws, Asn1.parseRawValues.
  replace (Nat.eqb 0 (List.length ([48] ++ L ++ body))) with false by reflexivity.
  rewrite (parse_seq_header N L body Hder ltac:(unfold N; lia)).
  cbn [Asn1.tl_length Asn1.tl_class Asn1.tl_tag Asn1.tl_isCompound].
  change Asn1.ClassUniversal with 0; change Asn1.TagSequence with 16; cbn [Z.eqb andb negb orb].
  rewrite invalidLength_fits by (unfold N; try lia; rewrite Nat2Z.id, !length_app; simpl; lia).
  replace (S (List.length L) + Z.to_nat N)%nat with (List.length ([48] ++ L ++ body))
    by (unfold N; rewrite Nat2Z.id, !length_app; simpl; lia).
  assert (Hs : Asn1.slice ([48] ++ L ++ body) (S (List.length L)) (List.length ([48] ++ L ++ body)) = body).
  { pose proof (slice_mid ([48] ++ L) body []) as Hm.
    rewrite app_nil_r, <- app_assoc, <- length_app, app_assoc in Hm.
    rewrite <- app_assoc in Hm; exact Hm. }
  rewrite Hs; unfold body; rewrite parseSequenceOfRaw_sans by exact HF.
  cbn [Pos.eqb negb orb]; rewrite skipn_all; reflexivity.
Qed.

Lemma san_value_unmarshal_once_witness :
  Asn1.UnmarshalRaws (ext_Value (sanExtension ["example.com"; "www.example.com"]%string))
  = inr (map sanParsed ["example.com"; "www.example.com"]%string, []) /\
  dnsNamesOfRaw (map sanParsed ["example.com"; "www.example.com"]%string) = ["example.com"; "www.example.com"]%string.
Proof.
  apply san_value_unmarshal_once; vm_compute; reflexivity.
Defined.

(** ** Files written by [main] and how it exits

    For any behaviour of the library calls of [main]. *)
Section MainRun.
Variable PrivKey : Type.
Variable generateKey : Z -> string + PrivKey.
Variable createCertificateRequest : CSRTemplate -> PrivKey -> string + bytes.
Variable marshalPKCS1PrivateKey : PrivKey -> bytes.
Variable randInt : string + Z.
Variable createCertificateDER : CertTemplate -> PrivKey -> string + bytes.
Variable mkdirAll : string -> option string.
Variable filepathJoin : string -> string -> string.
Variable osCreate : string -> option string.
Variable pemEncode : string -> Block -> option string.

Local Abbreviation run := (main_run PrivKey generateKey createCertificateRequest marshalPKCS1PrivateKey
  randInt createCertificateDER mkdirAll filepathJoin osCreate pemEncode).

(** unfold a run of [main] down to its library calls *)
Ltac run_steps :=
  unfold main_run; rewrite main_io_generate; cbv zeta;
  unfold createFile, encodeFile; unfold io_bind, orExit, orExitErr, emit, io_ret.

(** X8: when no certificate is asked for and every call succeeds, [main]
    (after creating the -o directory, if given) creates and writes the key
    file, then the CSR file, under [<prefix>.key] and [<prefix>.csr] (joined
    to the -o directory if given), with the key generated at [main_generate]'s
    key size and the CSR made from [main_generate]'s template, and exits
    normally; it creates no other file. *)
Theorem main_run_csr_only (fl : CmdFlags) (input : list string) (now : Z) (key : PrivKey) (csrBytes : bytes) :
  let g := main_generate (genFlags fl) input now in
  let dir := outputDirFlag fl in
  let path := outputPath filepathJoin dir (filePrefixOf input) in
  generateKey (gen_keySize (g 0)) = inr key ->
  createCertificateRequest (gen_csr (g 0)) key = inr csrBytes ->
  (dir <> EmptyString -> mkdirAll dir = None) ->
  (forall p, osCreate p = None) -> (forall p b, pemEncode p b = None) ->
  gen_certTemplate (g 0) = None ->
  run fl input now =
  mkRun ((if String.eqb dir EmptyString then [] else [EvMkdirAll dir]) ++
         [EvCreate (path ".key"%string);
          EvEncode (path ".key"%string) (mkBlock "RSA PRIVATE KEY" (marshalPKCS1PrivateKey key));
          EvCreate (path ".csr"%string);
          EvEncode (path ".csr"%string) (mkBlock "CERTIFICATE REQUEST" csrBytes)]) ExitOK.
Proof.
  intros g dir path Hk Hc Hd Hcr Hpe Hct.
  run_steps; unfold g in *; rewrite Hk, Hc, Hct; fold dir.
  destruct (String.eqb_spec dir EmptyString) as [Hdir|Hdir]; simpl.
  - rewrite !Hcr, !Hpe; reflexivity.
  - rewrite (Hd Hdir), !Hcr, !Hpe; reflexivity.
Qed.


(** X9: when a certificate is asked for and every call succeeds, [main]
    writes the key and CSR files as without one, then creates [<prefix>.crt]
    and writes to it a CERTIFICATE block holding what [x509.CreateCertificate]
    returns for [main_generate]'s certificate template at the random serial,
    and exits normally. *)
Theorem main_run_selfsigned (fl : CmdFlags) (input : list string) (now serialNumber : Z) (key : PrivKey)
    (csrBytes derBytes : bytes) (ct : CertTemplate) :
  let g := main_generate (genFlags fl) input now in
  let dir := outputDirFlag fl in
  let path := outputPath filepathJoin dir (filePrefixOf input) in
  generateKey (gen_keySize (g 0)) = inr key ->
  createCertificateRequest (gen_csr (g 0)) key = inr csrBytes ->
  (dir <> EmptyString -> mkdirAll dir = None) ->
  (forall p, osCreate p = None) -> (forall p b, pemEncode p b = None) ->
  randInt = inr serialNumber ->
  gen_certTemplate (g serialNumber) = Some ct ->
  createCertificateDER ct key = inr derBytes ->
  run fl input now =
  mkRun ((if String.eqb dir EmptyString then [] else [EvMkdirAll dir]) ++
         [EvCreate (path ".key"%string);
          EvEncode (path ".key"%string) (mkBlock "RSA PRIVATE KEY" (marshalPKCS1PrivateKey key));
          EvCreate (path ".csr"%string);
          EvEncode (path ".csr"%string) (mkBlock "CERTIFICATE REQUEST" csrBytes);
          EvCreate (path ".crt"%string);
          EvEncode (path ".crt"%string) (mkBlock "CERTIFICATE" derBytes)]) ExitOK.
Proof.
  intros g dir path Hk Hc Hd Hcr Hpe Hr Hct Hder.
  assert (H0 : exists ct0, gen_certTemplate (g 0) = Some ct0).
  { destruct (gen_certTemplate (g 0)) as [ct0|] eqn:E; [eauto|].
    unfold g in E; apply (certTemplate_some_any _ _ _ 0 serialNumber) in E; fold g in E; congruence. }
  destruct H0 as [ct0 H0].
  run_steps; unfold g in *; rewrite Hk, Hc, H0, Hr, Hct, Hder; fold dir.
  destruct (String.eqb_spec dir EmptyString) as [Hdir|Hdir]; simpl.
  - rewrite !Hcr, !Hpe; reflexivity.
  - rewrite (Hd Hdir), !Hcr, !Hpe; reflexivity.
Qed.

(** X10: when [x509.CreateCertificate] fails, [main] exits with status 1,
    its message is the error prefixed by "Failed to create certificate: ",
    the key and CSR files already written stay in place and no certificate
    file is created. *)
Theorem main_run_cert_failure (fl : CmdFlags) (input : list string) (now serialNumber : Z) (key : PrivKey)
    (csrBytes : bytes) (ct : CertTemplate) (err : string) :
  let g := main_generate (genFlags fl) input now in
  let dir := outputDirFlag fl in
  let path := outputPath filepathJoin dir (filePrefixOf input) in
  generateKey (gen_keySize (g 0)) = inr key ->
  createCertificateRequest (gen_csr (g 0)) key = inr csrBytes ->
  (dir <> EmptyString -> mkdirAll dir = None) ->
  (forall p, osCreate p = None) -> (forall p b, pemEncode p b = None) ->
  randInt = inr serialNumber ->
  gen_certTemplate (g serialNumber) = Some ct ->
  createCertificateDER ct key = inl err ->
  run fl input now =
  mkRun ((if String.eqb dir EmptyString then [] else [EvMkdirAll dir]) ++
         [EvCreate (path ".key"%string);
          EvEncode (path ".key"%string) (mkBlock "RSA PRIVATE KEY" (marshalPKCS1PrivateKey key));
          EvCreate (path ".csr"%string);
          EvEncode (path ".csr"%string) (mkBlock "CERTIFICATE REQUEST" csrBytes)])
        (ExitFail ("Failed to create certificate: " ++ err)).
Proof.
  intros g dir path Hk Hc Hd Hcr Hpe Hr Hct Hder.
  assert (H0 : exists ct0, gen_certTemplate (g 0) = Some ct0).
  { destruct (gen_certTemplate (g 0)) as [ct0|] eqn:E; [eauto|].
    unfold g in E; apply (certTemplate_some_any _ _ _ 0 serialNumber) in E; fold g in E; congruence. }
  destruct H0 as [ct0 H0].
  run_steps; unfold g in *; rewrite Hk, Hc, H0, Hr, Hct, Hder; fold dir.
  destruct (String.eqb_spec dir EmptyString) as [Hdir|Hdir]; simpl.
  - rewrite !Hcr, !Hpe; reflexivity.
  - rewrite (Hd Hdir), !Hcr, !Hpe; reflexivity.
Qed.

(** X11: in a generation run, when key generation, CSR creation or the
    creation of the -o directory fails, [main] exits with status 1 and has created or written
    no file; the only file-system call it can have made is the
    [os.MkdirAll] of the -o directory. *)
Theorem main_run_early_failure (fl : CmdFlags) (input : list string) (now : Z) :
  let g := main_generate (genFlags fl) input now in
  let dir := outputDirFlag fl in
  ~ (exists key csrBytes, generateKey (gen_keySize (g 0)) = inr key /\
       createCertificateRequest (gen_csr (g 0)) key = inr csrBytes /\
       (dir <> EmptyString -> mkdirAll dir = None)) ->
  Forall (fun ev => ev = EvMkdirAll dir) (run_events (run fl input now)) /\
  exists msg, run_exit (run fl input now) = ExitFail msg.
Proof.
  intros g dir Hfail.
  run_steps; unfold g in *; fold dir.
  destruct (generateKey _) as [e|key] eqn:Hk; [simpl; eauto|].
  destruct (createCertificateRequest _ key) as [e|csrBytes] eqn:Hc; [simpl; eauto|].
  destruct (String.eqb_spec dir EmptyString) as [Hdir|Hdir].
  - exfalso; apply Hfail; exists key, csrBytes; repeat split; auto; congruence.
  - destruct (mkdirAll dir) as [e|] eqn:Hm.
    + simpl; eauto.
    + exfalso; apply Hfail; exists key, csrBytes; auto.
Qed.

(** every block [main] writes carries one of three PEM labels *)
Lemma main_run_block_types (fl : CmdFlags) (input : list string) (now : Z) (p : string) (b : Block) :
  In (EvEncode p b) (run_events (run fl input now)) ->
  blk_Type b = "RSA PRIVATE KEY"%string \/ blk_Type b = "CERTIFICATE REQUEST"%string \/
  blk_Type b = "CERTIFICATE"%string.
Proof.
  run_steps.
  repeat (cbn beta iota;
          match goal with
          | |- context [match ?x with _ => _ end] =>
            match x with
            | generateKey _ => destruct x
            | createCertificateRequest _ _ => destruct x
            | mkdirAll _ => destruct x
            | osCreate _ => destruct x
            | pemEncode _ _ => destruct x
            | randInt => destruct x
            | createCertificateDER _ _ => destruct x
            | gen_certTemplate _ => destruct x
            end
          | |- context [if negb (String.eqb ?d EmptyString) then _ else _] => destruct (String.eqb d EmptyString)
          end);
  cbn [run_events app]; intros H;
  repeat (destruct H as [H|H]; [try discriminate; injection H as <- <-; simpl; auto|]);
  destruct H.
Qed.

(** X12: every PEM block [main] writes in a generation run is one [decodeFile]
    dispatches to the matching parser when the file is read back: an
    RSA PRIVATE KEY block to the PKCS#1 parser, a CERTIFICATE REQUEST block
    to the CSR parser, a CERTIFICATE block to the certificate parser; never
    to the PKCS#8 parser or the unsupported-type error. *)
Theorem main_written_blocks_decode (fl : CmdFlags) (input : list string) (now : Z) (p : string) (b : Block)
    nameString readFile pemDecode parseCertificate parseCertificateRequest
    parsePKCS1PrivateKey parsePKCS8PrivateKey (data : bytes) :
  In (EvEncode p b) (run_events (run fl input now)) ->
  readFile p = inr data -> pemDecode data = Some b ->
  let decoded := decodeFile nameString readFile pemDecode parseCertificate parseCertificateRequest
                   parsePKCS1PrivateKey parsePKCS8PrivateKey p in
  (blk_Type b = "RSA PRIVATE KEY"%string /\
   decoded = match parsePKCS1PrivateKey (blk_Bytes b) with
             | inl err => inl ("Failed to parse RSA private key: " ++ err)%string
             | inr key => inr (KeyInfo key)
             end) \/
  (blk_Type b = "CERTIFICATE REQUEST"%string /\
   decoded = match parseCertificateRequest (blk_Bytes b) with
             | inl err => inl ("Failed to parse CSR: " ++ err)%string
             | inr csr => inr (CSRInfo (printCSRInfo csr))
             end) \/
  (blk_Type b = "CERTIFICATE"%string /\
   decoded = match parseCertificate (blk_Bytes b) with
             | inl err => inl ("Failed to parse certificate: " ++ err)%string
             | inr cert => inr (CertInfo (printCertificateInfo nameString cert))
             end).
Proof.
  intros Hin Hread Hpem decoded; unfold decoded, decodeFile; rewrite Hread, Hpem.
  destruct (main_run_block_types fl input now p b Hin) as [Ht|[Ht|Ht]]; rewrite Ht; simpl; auto.
Qed.

End MainRun.

(** X13: the key-usage lines of [printCertificateInfo] depend only on the
    nine low bits of the key usage: higher bits never print anything. *)
Theorem keyUsageLines_low_bits (ku : Z) :
  keyUsageLines (Z.land ku 511) = keyUsageLines ku.
Proof.
  unfold keyUsageLines; cbn [filter fst snd]; rewrite <- !Z.land_assoc; reflexivity.
Qed.

(** X14: decoding a certificate [main] generates prints its subject (in
    [formatName]'s rendering) as subject and as issuer, the random serial,
    self-signed true, the key usages Digital Signature and Key Encipherment
    in that order and the one extended usage Server Authentication. *)
Theorem main_cert_summary (nameString : Name -> string) (fl : Flags) (input : list string)
    (now serialNumber : Z) (c : Certificate) :
  let g := main_generate fl input now serialNumber in
  gen_cert g = Some c ->
  let s := printCertificateInfo nameString c in
  cs_Subject s = formatName (gen_subject g) /\ cs_Issuer s = cs_Subject s /\
  cs_SerialNumber s = serialNumber /\ cs_SelfSigned s = true /\
  cs_KeyUsage s = ["Digital Signature"; "Key Encipherment"]%string /\
  cs_ExtKeyUsage s = ["Server Authentication"]%string.
Proof.
  intros g Hc s.
  destruct (main_generate_cert fl input now serialNumber c Hc) as [t [_ [-> ->]]].
  unfold s, printCertificateInfo, createCertificate, certTemplate; simpl.
  rewrite String.eqb_refl; repeat split; reflexivity.
Qed.

Lemma main_run_csr_only_witness :
  main_run unit (fun _ => inr tt) (fun _ _ => inr [1]) (fun _ => [2]) (inr 7) (fun _ _ => inr [3])
    (fun _ => None) (fun d p => (d ++ "/" ++ p)%string) (fun _ => None) (fun _ _ => None)
    (mkCmdFlags false false false false (mkFlags false 365) "out" EmptyString)
    ["example.com"; "Example Inc"; "IT"; "US"; "California"; "San Francisco"; "admin@example.com";
     "4096"; " "; "n"; "n"]%string 0
  = mkRun [EvMkdirAll "out"; EvCreate "out/cert.key"; EvEncode "out/cert.key" (mkBlock "RSA PRIVATE KEY" [2]);
           EvCreate "out/cert.csr"; EvEncode "out/cert.csr" (mkBlock "CERTIFICATE REQUEST" [1])]%string
      ExitOK.
Proof.
  apply (main_run_csr_only unit (fun _ => inr tt) (fun _ _ => inr [1]) (fun _ => [2]) (inr 7)
          (fun _ _ => inr [3]) (fun _ => None) (fun d p => (d ++ "/" ++ p)%string) (fun _ => None)
          (fun _ _ => None)
          (mkCmdFlags false false false false (mkFlags false 365) "out" EmptyString)
          ["example.com"; "Example Inc"; "IT"; "US"; "California"; "San Francisco"; "admin@example.com"; "4096"; " "; "n"; "n"]%string 0 tt [1]);
  first [reflexivity | intros; reflexivity | vm_compute; reflexivity].
Defined.

Lemma main_run_selfsigned_witness :
  main_run unit (fun _ => inr tt) (fun _ _ => inr [1]) (fun _ => [2]) (inr 7) (fun _ _ => inr [3])
    (fun _ => None) (fun d p => (d ++ "/" ++ p)%string) (fun _ => None) (fun _ _ => None)
    (mkCmdFlags false false false false (mkFlags false 365) EmptyString EmptyString)
    ["example.com"; "Example Inc"; "IT"; "US"; "California"; "San Francisco"; "admin@example.com";
     "4096"; "site"; "y"; ""; "n"]%string 0
  = mkRun [EvCreate "site.key"; EvEncode "site.key" (mkBlock "RSA PRIVATE KEY" [2]);
           EvCreate "site.csr"; EvEncode "site.csr" (mkBlock "CERTIFICATE REQUEST" [1]);
           EvCreate "site.crt"; EvEncode "site.crt" (mkBlock "CERTIFICATE" [3])]%string
      ExitOK.
Proof.
  apply (main_run_selfsigned unit (fun _ => inr tt) (fun _ _ => inr [1]) (fun _ => [2]) (inr 7)
          (fun _ _ => inr [3]) (fun _ => None) (fun d p => (d ++ "/" ++ p)%string) (fun _ => None)
          (fun _ _ => None)
          (mkCmdFlags false false false false (mkFlags false 365) EmptyString EmptyString)
          ["example.com"; "Example Inc"; "IT"; "US"; "California"; "San Francisco"; "admin@example.com"; "4096"; "site"; "y"; ""; "n"]%string 0 7 tt [1] [3]
          (certTemplate (mkName "example.com" ["Example Inc"] ["IT"] ["US"] ["California"] ["San Francisco"])%string [] "example.com"%string 365 0 7));
  first [reflexivity | intros; reflexivity | vm_compute; reflexivity].
Defined.

Lemma main_run_cert_failure_witness :
  main_run unit (fun _ => inr tt) (fun _ _ => inr [1]) (fun _ => [2]) (inr 7)
    (fun _ _ => inl "signing failed"%string)
    (fun _ => None) (fun d p => (d ++ "/" ++ p)%string) (fun _ => None) (fun _ _ => None)
    (mkCmdFlags false false false false (mkFlags true 30) EmptyString EmptyString)
    ["example.com"; "Example Inc"; "IT"; "US"; "California"; "San Francisco"; "admin@example.com";
     "2048"; ""; "n"]%string 0
  = mkRun [EvCreate "cert.key"; EvEncode "cert.key" (mkBlock "RSA PRIVATE KEY" [2]);
           EvCreate "cert.csr"; EvEncode "cert.csr" (mkBlock "CERTIFICATE REQUEST" [1])]%string
      (ExitFail "Failed to create certificate: signing failed").
Proof.
  apply (main_run_cert_failure unit (fun _ => inr tt) (fun _ _ => inr [1]) (fun _ => [2]) (inr 7)
          (fun _ _ => inl "signing failed"%string) (fun _ => None) (fun d p => (d ++ "/" ++ p)%string)
          (fun _ => None) (fun _ _ => None)
          (mkCmdFlags false false false false (mkFlags true 30) EmptyString EmptyString)
          ["example.com"; "Example Inc"; "IT"; "US"; "California"; "San Francisco"; "admin@example.com"; "2048"; ""; "n"]%string 0 7 tt [1]
          (certTemplate (mkName "example.com" ["Example Inc"] ["IT"] ["US"] ["California"] ["San Francisco"])%string [] "example.com"%string 30 0 7) "signing failed"%string);
  first [reflexivity | intros; reflexivity | vm_compute; reflexivity].
Defined.

Lemma main_run_early_failure_witness :
  let r := main_run unit (fun _ => inl "entropy exhausted"%string) (fun _ _ => inr [1]) (fun _ => [2])
             (inr 7) (fun _ _ => inr [3])
             (fun _ => None) (fun d p => (d ++ "/" ++ p)%string) (fun _ => None) (fun _ _ => None)
             (mkCmdFlags false false false false (mkFlags false 365) "out" EmptyString)
             ["example.com"]%string 0 in
  Forall (fun ev => ev = EvMkdirAll "out"%string) (run_events r) /\
  exists msg, run_exit r = ExitFail msg.
Proof.
  apply (main_run_early_failure unit (fun _ => inl "entropy exhausted"%string) (fun _ _ => inr [1])
          (fun _ => [2]) (inr 7) (fun _ _ => inr [3]) (fun _ => None)
          (fun d p => (d ++ "/" ++ p)%string) (fun _ => None) (fun _ _ => None)
          (mkCmdFlags false false false false (mkFlags false 365) "out" EmptyString)
          ["example.com"]%string 0).
  intros [key [csrBytes [Hk _]]]; discriminate Hk.
Defined.

Lemma main_written_blocks_decode_witness :
  decodeFile formatName (fun _ => inr [9]) (fun _ => Some (mkBlock "RSA PRIVATE KEY" [2]))
    (fun _ => inl "no"%string) (fun _ => inl "no"%string) (fun _ => inr (mkRSAKey 4096 65537 true))
    (fun _ => inr PKOther) "cert.key"
  = inr (KeyInfo (mkRSAKey 4096 65537 true)).
Proof.
  destruct (main_written_blocks_decode unit (fun _ => inr tt) (fun _ _ => inr [1]) (fun _ => [2]) (inr 7)
              (fun _ _ => inr [3]) (fun _ => None) (fun d p => (d ++ "/" ++ p)%string) (fun _ => None)
              (fun _ _ => None)
              (mkCmdFlags false false false false (mkFlags false 365) EmptyString EmptyString)
              ["example.com"]%string 0 "cert.key" (mkBlock "RSA PRIVATE KEY" [2])
              formatName (fun _ => inr [9]) (fun _ => Some (mkBlock "RSA PRIVATE KEY" [2]))
              (fun _ => inl "no"%string) (fun _ => inl "no"%string)
              (fun _ => inr (mkRSAKey 4096 65537 true)) (fun _ => inr PKOther) [9])
    as [[_ Hd]|[[Ht _]|[Ht _]]].
  - vm_compute; right; left; reflexivity.
  - reflexivity.
  - reflexivity.
  - exact Hd.
  - discriminate Ht.
  - discriminate Ht.
Defined.

Lemma main_cert_summary_witness :
  let g := main_generate (mkFlags true 30)
             ["example.com"; "Example Inc"; "IT"; "US"; "California"; "San Francisco";
              "admin@example.com"; "2048"; ""; "n"]%string 0 7 in
  let t := certTemplate (mkName "example.com" ["Example Inc"] ["IT"] ["US"] ["California"]
             ["San Francisco"])%string [] "example.com"%string 30 0 7 in
  let s := printCertificateInfo formatName (createCertificate t t) in
  cs_Subject s = formatName (gen_subject g) /\ cs_Issuer s = cs_Subject s /\
  cs_SerialNumber s = 7 /\ cs_SelfSigned s = true /\
  cs_KeyUsage s = ["Digital Signature"; "Key Encipherment"]%string /\
  cs_ExtKeyUsage s = ["Server Authentication"]%string.
Proof.
  apply main_cert_summary; vm_compute; reflexivity.
Defined.

Lemma formatName_blank_rendered_witness :
  let subj := gen_subject (main_generate (mkFlags false 365)
                ["example.com"; "Acme"; EmptyString; "US"; "CA"; "SF"; EmptyString; EmptyString; EmptyString;
                 "n"; "n"]%string 0 0) in
  formatName subj = "CN=example.com, O=Acme, OU=, C=US, ST=CA, L=SF"%string /\
  formatName subj <> formatName_claimed subj.
Proof.
  pose proof (proj2 formatName_blank_rendered (mkFlags false 365)
    ["example.com"; "Acme"; EmptyString; "US"; "CA"; "SF"; EmptyString; EmptyString; EmptyString;
     "n"; "n"]%string 0 0) as HM.
  cbv zeta in HM |- *; destruct HM as (_ & _ & _ & _ & _ & Hiff).
  split; [vm_compute; reflexivity|].
  intros H; apply Hiff, Forall_inv_tail, Forall_inv in H.
  apply H; vm_compute; reflexivity.
Defined.
